(** * Trello board report pipeline: a shallow embedding and its properties

    The development follows the two Python sources of the repository:
    - [config/trello_tools.py]: the two fetch tools
      ([BoardDataFetcherTool._run], [CardDataFetcherTool._run]);
    - [trello_board_app.py]: configuration loading, agent and task
      construction, [generate_trello_report] and the button handler of
      [main].

    Python code is effectful: it reads and writes [os.environ], prints,
    talks to the Trello HTTP API, reports to the Streamlit front end and
    raises exceptions.  All of that is made explicit in a state-and-exception
    monad over a [World] that carries the process environment and a
    chronological event trace. *)

From Stdlib Require Import ZArith String Ascii List DecimalString.
From stdpp Require Import gmap strings list.

Set Warnings "-register-all".

Local Open Scope Z_scope.
Local Open Scope string_scope.

(** ** Python values *)

(** The values that cross the boundaries modelled here: what
    [response.json()] and [yaml.safe_load] produce and what the tools
    return.  A Python [str] is a sequence of code points below 256, a
    [dict] keeps its insertion order.  Floats do not occur in the modelled
    code paths. *)
Inductive PyVal : Type :=
| PyNone
| PyBool (b : bool)
| PyInt (z : Z)
| PyStr (s : string)
| PyList (l : list PyVal)
| PyDict (items : list (string * PyVal)).

(** Exceptions raised on the modelled paths. *)
Inductive PyExc : Type :=
| KeyError (key : string)
| TypeError (msg : string)
| FileNotFoundError (path : string)
| YAMLError (msg : string)
| JSONDecodeError (msg : string)
| RequestException (msg : string)
| ToolNotFound (tool : string)
| AgentException (msg : string).

(** The result of running a piece of Python: a value or a raised exception. *)
Inductive Outcome (A : Type) : Type :=
| Returned (a : A)
| Raised (e : PyExc).
Arguments Returned {A} a.
Arguments Raised {A} e.

(** Python truthiness, as used by [if not configs] and by
    [api_key and api_token and board_id]. *)
Definition py_truthy (v : PyVal) : bool :=
  match v with
  | PyNone => false
  | PyBool b => b
  | PyInt z => negb (Z.eqb z 0)
  | PyStr s => negb (String.eqb s EmptyString)
  | PyList l => negb (Nat.eqb (length l) 0)
  | PyDict items => negb (Nat.eqb (length items) 0)
  end.

(** [d[k] = v] on an insertion-ordered dict. *)
Fixpoint dict_set (items : list (string * PyVal)) (k : string) (v : PyVal)
  : list (string * PyVal) :=
  match items with
  | [] => [(k, v)]
  | (k', v') :: rest =>
      if String.eqb k' k then (k, v) :: rest else (k', v') :: dict_set rest k v
  end.

Fixpoint dict_get (items : list (string * PyVal)) (k : string) : option PyVal :=
  match items with
  | [] => None
  | (k', v) :: rest => if String.eqb k' k then Some v else dict_get rest k
  end.

(** ** Text helpers: [str(int)], [repr(bytes)], [json.dumps] *)

Module Text.

Definition dquote : ascii := "034"%char.
Definition squote : ascii := "039"%char.
Definition backslash : ascii := "092"%char.

Definition str1 (c : ascii) : string := String c EmptyString.

(** [str(n)] for a Python int. *)
Definition str_of_int (z : Z) : string := NilZero.string_of_int (Z.to_int z).

Definition hex_digit (n : N) : ascii :=
  if (n <? 10)%N then ascii_of_N (48 + n) else ascii_of_N (87 + n).

(** Two lowercase hexadecimal digits of a byte. *)
Definition hex2 (c : ascii) : string :=
  let n := N_of_ascii c in
  String (hex_digit (n / 16)) (String (hex_digit (n mod 16)) EmptyString).

Fixpoint contains_char (c : ascii) (s : string) : bool :=
  match s with
  | EmptyString => false
  | String d rest => if Ascii.eqb c d then true else contains_char c rest
  end.

(** [needle in haystack] for Python strings. *)
Fixpoint contains (needle haystack : string) : bool :=
  if String.prefix needle haystack then true
  else match haystack with
       | EmptyString => false
       | String _ rest => contains needle rest
       end.

(** One byte of [repr(b)]: the quote in use and the backslash are
    escaped, tab, newline and carriage return have their short forms,
    everything outside the printable range is [\xhh]. *)
Definition repr_byte (quote c : ascii) : string :=
  let n := N_of_ascii c in
  if Ascii.eqb c quote || Ascii.eqb c backslash then String backslash (str1 c)
  else if (n =? 9)%N then String backslash "t"
  else if (n =? 10)%N then String backslash "n"
  else if (n =? 13)%N then String backslash "r"
  else if (n <? 32)%N || (127 <=? n)%N then String backslash ("x" +:+ hex2 c)
  else str1 c.

Fixpoint repr_bytes_body (quote : ascii) (b : string) : string :=
  match b with
  | EmptyString => EmptyString
  | String c rest => repr_byte quote c +:+ repr_bytes_body quote rest
  end.

(** [repr(b)] of a [bytes] object, which is what an f-string inserts for
    [response.content]: single quotes unless the data has a single quote
    and no double quote. *)
Definition repr_bytes (b : string) : string :=
  let quote :=
    if contains_char squote b && negb (contains_char dquote b)
    then dquote else squote in
  "b" +:+ str1 quote +:+ repr_bytes_body quote b +:+ str1 quote.

(** One character of a JSON string under [ensure_ascii=True]. *)
Definition json_escape_char (c : ascii) : string :=
  let n := N_of_ascii c in
  if Ascii.eqb c dquote then String backslash (str1 dquote)
  else if Ascii.eqb c backslash then String backslash (str1 backslash)
  else if (n =? 10)%N then String backslash "n"
  else if (n =? 13)%N then String backslash "r"
  else if (n =? 9)%N then String backslash "t"
  else if (n =? 8)%N then String backslash "b"
  else if (n =? 12)%N then String backslash "f"
  else if (n <? 32)%N || (127 <=? n)%N then String backslash ("u00" +:+ hex2 c)
  else str1 c.

Fixpoint json_escape (s : string) : string :=
  match s with
  | EmptyString => EmptyString
  | String c rest => json_escape_char c +:+ json_escape rest
  end.

Definition json_string (s : string) : string :=
  str1 dquote +:+ json_escape s +:+ str1 dquote.

(** [json.dumps(v)] with the default separators [", "] and [": "]. *)
Fixpoint json_dumps (v : PyVal) : string :=
  match v with
  | PyNone => "null"
  | PyBool true => "true"
  | PyBool false => "false"
  | PyInt z => str_of_int z
  | PyStr s => json_string s
  | PyList l =>
      "[" +:+
      (fix elems (l : list PyVal) : string :=
         match l with
         | [] => EmptyString
         | [x] => json_dumps x
         | x :: rest => json_dumps x +:+ ", " +:+ elems rest
         end) l
      +:+ "]"
  | PyDict items =>
      "{" +:+
      (fix members (l : list (string * PyVal)) : string :=
         match l with
         | [] => EmptyString
         | [(k, x)] => json_string k +:+ ": " +:+ json_dumps x
         | (k, x) :: rest =>
             json_string k +:+ ": " +:+ json_dumps x +:+ ", " +:+ members rest
         end) items
      +:+ "}"
  end.

End Text.

Example str_of_int_401 : Text.str_of_int 401 = "401".
Proof. reflexivity. Qed.

Example repr_bytes_plain : Text.repr_bytes "invalid key" = "b'invalid key'".
Proof. reflexivity. Qed.

Example json_dumps_list :
  Text.json_dumps (PyList [PyInt 1; PyNone; PyBool true]) = "[1, null, true]".
Proof. reflexivity. Qed.

(** ** [base64.b64encode] *)

Module Base64.

(** The character of a six-bit value in the standard alphabet. *)
Definition digit (n : N) : ascii :=
  if (n <? 26)%N then ascii_of_N (65 + n)
  else if (n <? 52)%N then ascii_of_N (97 + (n - 26))
  else if (n <? 62)%N then ascii_of_N (48 + (n - 52))
  else if (n =? 62)%N then "+"%char
  else "/"%char.

Definition pad : ascii := "="%char.

(** Three bytes give four characters; one or two bytes left at the end
    give two or three characters and padding. *)
Fixpoint b64encode (data : string) : string :=
  match data with
  | EmptyString => EmptyString
  | String a EmptyString =>
      let x := N_of_ascii a in
      String (digit (x / 4))
        (String (digit ((x mod 4) * 16))
           (String pad (String pad EmptyString)))
  | String a (String b EmptyString) =>
      let x := N_of_ascii a in
      let y := N_of_ascii b in
      String (digit (x / 4))
        (String (digit ((x mod 4) * 16 + y / 16))
           (String (digit ((y mod 16) * 4))
              (String pad EmptyString)))
  | String a (String b (String c rest)) =>
      let x := N_of_ascii a in
      let y := N_of_ascii b in
      let z := N_of_ascii c in
      String (digit (x / 4))
        (String (digit ((x mod 4) * 16 + y / 16))
           (String (digit ((y mod 16) * 4 + z / 64))
              (String (digit (z mod 64)) (b64encode rest))))
  end.

End Base64.

Example b64encode_man : Base64.b64encode "Man" = "TWFu".
Proof. reflexivity. Qed.

Example b64encode_padding : Base64.b64encode "Ma" = "TWE=".
Proof. reflexivity. Qed.

(** ** HTTP, tools, agents, tasks *)

(** A [requests.get(url, params=query)] call and what comes back. *)
Record Request : Type := mkRequest {
  url : string;
  params : list (string * string)
}.

Record Response : Type := mkResponse {
  status_code : Z;
  content : string
}.

(** The two tool classes of [config/trello_tools.py]. *)
Inductive Tool : Type :=
| BoardDataFetcherTool
| CardDataFetcherTool.

(** The [name] attribute of each tool class. *)
Definition tool_name (t : Tool) : string :=
  match t with
  | BoardDataFetcherTool => "Trello Board Data Fetcher"
  | CardDataFetcherTool => "Trello Card Data Fetcher"
  end.

(** [Agent(config=..., tools=...)]; [tools] defaults to the empty list. *)
Record Agent : Type := mkAgent {
  agent_config : PyVal;
  tools : list Tool
}.

(** [Task(config=..., agent=...)]. *)
Record Task : Type := mkTask {
  task_config : PyVal;
  agent : Agent
}.

(** [Crew(agents=..., tasks=..., verbose=True)]. *)
Record Crew : Type := mkCrew {
  crew_agents : list Agent;
  crew_tasks : list Task
}.

(** The output of one task and of the whole crew; [raw] is the text. *)
Record TaskOutput : Type := mkTaskOutput {
  task_raw : string;
  produced_by : Task
}.

Record CrewOutput : Type := mkCrewOutput {
  raw : string;
  tasks_output : list TaskOutput
}.

(** ** The world *)

Inductive StKind : Type := StError | StWarning | StSuccess | StMarkdown.

(** Everything observable that a run does, in the order it happens. *)
Inductive Event : Type :=
| EvStdout (line : string)
| EvHttpGet (req : Request)
| EvStreamlit (kind : StKind) (msg : string)
| EvTaskStart (t : Task) (context : string)
| EvTaskEnd (t : Task) (out : Outcome string).

(** Process-wide state: [os.environ] and the trace of events so far. *)
Record World : Type := mkWorld {
  environ : gmap string string;
  events : list Event
}.

(** ** The effect monad *)

Definition M (A : Type) : Type := World -> Outcome A * World.

Definition ret {A} (a : A) : M A := fun w => (Returned a, w).

Definition raise {A} (e : PyExc) : M A := fun w => (Raised e, w).

Definition bind {A B} (m : M A) (k : A -> M B) : M B :=
  fun w =>
    match m w with
    | (Returned a, w') => k a w'
    | (Raised e, w') => (Raised e, w')
    end.

(** [try: m  except Exception as e: handler e]. *)
Definition try_except {A} (m : M A) (handler : PyExc -> M A) : M A :=
  fun w =>
    match m w with
    | (Returned a, w') => (Returned a, w')
    | (Raised e, w') => handler e w'
    end.

Notation "'let*' x := m 'in' k" := (bind m (fun x => k))
  (at level 10, x name, m at level 100, k at level 200).
Notation "'let*' ' p := m 'in' k" := (bind m (fun p => k))
  (at level 10, p strict pattern, m at level 100, k at level 200).

Definition emit (ev : Event) : M unit :=
  fun w => (Returned tt, mkWorld (environ w) (events w ++ [ev])).

(** [print(line)]. *)
Definition print (line : string) : M unit := emit (EvStdout line).

Definition st_error (msg : string) : M unit := emit (EvStreamlit StError msg).
Definition st_warning (msg : string) : M unit := emit (EvStreamlit StWarning msg).
Definition st_success (msg : string) : M unit := emit (EvStreamlit StSuccess msg).
Definition st_markdown (msg : string) : M unit := emit (EvStreamlit StMarkdown msg).

(** [os.environ[name]]: raises [KeyError] when the variable is not set. *)
Definition environ_getitem (name : string) : M string :=
  fun w =>
    match environ w !! name with
    | Some v => (Returned v, w)
    | None => (Raised (KeyError name), w)
    end.

(** [os.getenv(name)]: [None] when the variable is not set. *)
Definition getenv (name : string) : M (option string) :=
  fun w => (Returned (environ w !! name), w).

(** [os.getenv(name, default)]. *)
Definition getenv_default (name fallback : string) : M string :=
  fun w => (Returned (default fallback (environ w !! name)), w).

(** [os.environ[name] = value]: only a [str] is accepted, [None] raises
    [TypeError] and leaves the environment as it is. *)
Definition environ_setitem (name : string) (value : option string) : M unit :=
  fun w =>
    match value with
    | Some v => (Returned tt, mkWorld (<[name := v]> (environ w)) (events w))
    | None => (Raised (TypeError "str expected, not NoneType"), w)
    end.

(** [str(e)] as an f-string renders an exception. *)
Definition exc_str (e : PyExc) : string :=
  match e with
  | KeyError key => Text.str1 Text.squote +:+ key +:+ Text.str1 Text.squote
  | TypeError msg => msg
  | FileNotFoundError path =>
      "[Errno 2] No such file or directory: "
      +:+ Text.str1 Text.squote +:+ path +:+ Text.str1 Text.squote
  | YAMLError msg => msg
  | JSONDecodeError msg => msg
  | RequestException msg => msg
  | ToolNotFound tool => tool
  | AgentException msg => msg
  end.

(** Projections of the trace. *)
Definition stdout_of (evs : list Event) : list string :=
  omap (fun ev => match ev with EvStdout l => Some l | _ => None end) evs.

Definition http_of (evs : list Event) : list Request :=
  omap (fun ev => match ev with EvHttpGet r => Some r | _ => None end) evs.

Definition is_task_event (ev : Event) : bool :=
  match ev with
  | EvTaskStart _ _ | EvTaskEnd _ _ => true
  | _ => false
  end.

Definition task_events_of (evs : list Event) : list Event :=
  List.filter is_task_event evs.

(** ** The program

    What lies outside the repository is a parameter of the development:
    the Trello API behind [requests.get], the JSON decoder behind
    [response.json()], the file system and [yaml.safe_load] behind
    [load_yaml_configs], and the language model that drives an agent. *)

(** What an agent does with a task: it answers, fails, or asks for a tool
    by name and goes on with what the tool gave back. *)
Inductive AgentProg : Type :=
| FinalAnswer (answer : string)
| AgentRaise (e : PyExc)
| UseTool (name : string) (input : option string)
          (continue : Outcome PyVal -> AgentProg).

(** The environment after the three assignments at the top of
    [generate_trello_report]. *)
Definition credentials_env (api_key api_token board_id : string)
           (env : gmap string string) : gmap string string :=
  <["TRELLO_BOARD_ID" := board_id]>
    (<["TRELLO_API_TOKEN" := api_token]>
       (<["TRELLO_API_KEY" := api_key]> env)).

(** World [w] after the events [evs] have happened. *)
Definition extend (w : World) (evs : list Event) : World :=
  mkWorld (environ w) (events w ++ evs).


(** Whether a piece of code ended by raising. *)
Definition raised {A} (o : Outcome A) : bool :=
  match o with
  | Raised _ => true
  | Returned _ => false
  end.

(** The front-end messages of a trace. *)
Definition streamlit_of (evs : list Event) : list (StKind * string) :=
  omap (fun ev => match ev with EvStreamlit k m => Some (k, m) | _ => None end) evs.

(** ** Concrete surroundings

    Small instances of what the program is parametrised by, used to run it
    on concrete inputs. *)
Module Scenario.

(** The value of a query parameter of a request. *)
Definition param (name : string) (req : Request) : string :=
  match List.find (fun kv => String.eqb (fst kv) name) (params req) with
  | Some kv => snd kv
  | None => EmptyString
  end.

(** An API that answers every request with the given status. *)
Definition api_status (status : Z) (req : Request) : Outcome Response :=
  Returned (mkResponse status "unauthorized permission requested").

(** The status [api_status 500] gives to a request. *)
Definition api_status_of (req : Request) : Outcome Z :=
  match api_status 500 req with
  | Returned response => Returned (status_code response)
  | Raised e => Raised e
  end.

(** An API that rejects the key and says which key it rejected. *)
Definition api_echo (req : Request) : Outcome Response :=
  Returned (mkResponse 401 ("invalid key: " +:+ param "key" req)).

(** An API that serves a board with three cards. *)
Definition api_board (req : Request) : Outcome Response :=
  Returned (mkResponse 200 "[card-1, card-2, card-3]").

Definition card (name list_id : string) : PyVal :=
  PyDict [("name", PyStr name); ("idList", PyStr list_id); ("due", PyNone)].

Definition three_cards : list PyVal :=
  [card "Write report" "todo"; card "Fix login" "doing"; card "Ship" "done"].

(** A decoder that knows the body [api_board] serves. *)
Definition decode (body : string) : option PyVal :=
  if String.eqb body "[card-1, card-2, card-3]" then Some (PyList three_cards)
  else None.

(** Both configuration files exist; a file's content is its own path. *)
Definition files (path : string) : option string := Some path.

Definition agents_doc : PyVal :=
  PyDict [("data_collection_agent", PyDict [("role", PyStr "collector")]);
          ("analysis_agent", PyDict [("role", PyStr "analyst")])].

Definition tasks_doc : PyVal :=
  PyDict [("data_collection", PyDict [("description", PyStr "collect")]);
          ("data_analysis", PyDict [("description", PyStr "analyze")]);
          ("report_generation", PyDict [("description", PyStr "report")])].

Definition yaml (text : string) : string + PyVal :=
  if String.eqb text "config/agents.yaml" then inr agents_doc
  else if String.eqb text "config/tasks.yaml" then inr tasks_doc
  else inl "could not find expected ':'".

(** A language model that fetches the board when asked to collect, goes
    on whatever the fetch gave, and otherwise just answers. *)
Definition model (agent_cfg task_cfg : PyVal) (context : string) : AgentProg :=
  match task_cfg with
  | PyDict [(_, PyStr "collect")] =>
      UseTool "Trello Board Data Fetcher" None
              (fun observation => FinalAnswer "cards collected")
  | PyDict [(_, PyStr "analyze")] => FinalAnswer "analysis"
  | _ => FinalAnswer "SPRINT REPORT"
  end.

(** A model whose analyst tries to fetch although it has no tools. *)
Definition curious_model (agent_cfg task_cfg : PyVal) (context : string)
  : AgentProg :=
  UseTool "Trello Board Data Fetcher" None
          (fun observation => FinalAnswer "done").

(** The agents and tasks that the two documents describe. *)
Definition collector : Agent :=
  mkAgent (PyDict [("role", PyStr "collector")])
          [BoardDataFetcherTool; CardDataFetcherTool].

Definition analyst : Agent := mkAgent (PyDict [("role", PyStr "analyst")]) [].

Definition collect_task : Task :=
  mkTask (PyDict [("description", PyStr "collect")]) collector.

Definition analyze_task : Task :=
  mkTask (PyDict [("description", PyStr "analyze")]) analyst.

Definition report_task : Task :=
  mkTask (PyDict [("description", PyStr "report")]) analyst.

(** A fresh process: nothing in the environment, nothing happened. *)
Definition fresh : World := mkWorld ∅ [].

(** A process whose environment holds the three credentials. *)
Definition with_credentials : World :=
  mkWorld (credentials_env "SECRETKEY" "SECRETTOKEN" "board42" ∅) [].

End Scenario.

(** More surroundings: failing APIs, broken or missing files, a [.env]. *)
Module Cases.

(** An API that cannot be reached. *)
Definition api_down (req : Request) : Outcome Response :=
  Raised (RequestException "Connection refused").

(** An API that answers 200 with a page that is not JSON. *)
Definition api_html (req : Request) : Outcome Response :=
  Returned (mkResponse 200 "<html>maintenance</html>").

(** A directory without any file. *)
Definition no_files (path : string) : option string := None.

(** Only [config/agents.yaml] exists. *)
Definition agents_file_only (path : string) : option string :=
  if String.eqb path "config/agents.yaml" then Some path else None.

(** A parser that rejects everything. *)
Definition yaml_broken (text : string) : string + PyVal :=
  inl "mapping values are not allowed here".

(** [config/tasks.yaml] is broken, [config/agents.yaml] is fine. *)
Definition yaml_tasks_broken (text : string) : string + PyVal :=
  if String.eqb text "config/tasks.yaml"
  then inl "mapping values are not allowed here"
  else Scenario.yaml text.

(** [config/agents.yaml] is an empty document. *)
Definition yaml_agents_empty (text : string) : string + PyVal :=
  if String.eqb text "config/agents.yaml" then inr PyNone else Scenario.yaml text.

(** A [.env] with the two OpenAI variables. *)
Definition dotenv : gmap string string :=
  <["OPENAI_API_KEY2" := "sk-from-dotenv"]>
    (<["OPENAI_MODEL_NAME" := "gpt-4o-mini"]> ∅).

(** A [.env] without [OPENAI_MODEL_NAME]. *)
Definition dotenv_no_model : gmap string string :=
  <["OPENAI_API_KEY2" := "sk-from-dotenv"]> ∅.

(** A process that has an [OPENAI_API_KEY] of its own. *)
Definition with_openai_key : World :=
  mkWorld (<["OPENAI_API_KEY" := "sk-from-shell"]> ∅) [].

End Cases.

(** The radio button of [main]. *)
Inductive BoardType : Type := SampleBoard | MyTrelloBoard.

(** Truthiness of a credential: [None] and the empty string are falsy. *)
Definition truthy_str (v : option string) : bool :=
  match v with
  | Some s => py_truthy (PyStr s)
  | None => false
  end.

Section Program.

(** [requests.get]: a response, or an exception (connection error,
    timeout). *)
Variable requests_get : Request -> Outcome Response.

(** The decoder of [response.json()]; [None] when the body is not JSON. *)
Variable json_loads : string -> option PyVal.

(** [open(path).read()]; [None] when the file does not exist. *)
Variable read_file : string -> option string.

(** [yaml.safe_load]: the parsed document, or the message of a
    [yaml.YAMLError]. *)
Variable yaml_safe_load : string -> string + PyVal.

(** The reasoning substrate: agent configuration, task configuration and
    context in, behaviour out. *)
Variable llm : PyVal -> PyVal -> string -> AgentProg.

(** What [load_dotenv()] finds in the [.env] file: the variables it
    defines, with their values. *)
Variable dotenv_values : gmap string string.

(** *** config/trello_tools.py *)

Definition http_get (u : string) (query : list (string * string)) : M Response :=
  fun w =>
    let req := mkRequest u query in
    (requests_get req, mkWorld (environ w) (events w ++ [EvHttpGet req])).

(** [response.json()]. *)
Definition response_json (r : Response) : M PyVal :=
  match json_loads (content r) with
  | Some v => ret v
  | None => raise (JSONDecodeError "Expecting value")
  end.

(** The literal both tools return on a status other than 200. *)
Definition fetch_error_payload : PyVal :=
  PyDict [("error",
           PyStr "Failed to fetch card data, don't try to fetch any trello data anymore")].

(** The text of [json.dumps(fetch_error_payload)], written out. *)
Definition fetch_error_text : string :=
  "{" +:+ Text.str1 Text.dquote +:+ "error" +:+ Text.str1 Text.dquote +:+ ": "
  +:+ Text.str1 Text.dquote
  +:+ "Failed to fetch card data, don't try to fetch any trello data anymore"
  +:+ Text.str1 Text.dquote +:+ "}".

(** The three [print] calls after the request. *)
Definition print_response (u : string) (response : Response) : M unit :=
  let* _ := print ("URL: " +:+ u) in
  let* _ := print ("Response Status Code: "
                   +:+ Text.str_of_int (status_code response)) in
  print ("Response Content: " +:+ Text.repr_bytes (content response)).

(** [BoardDataFetcherTool._run(self)]. *)
Definition BoardDataFetcherTool_run : M PyVal :=
  let* api_key := environ_getitem "TRELLO_API_KEY" in
  let* api_token := environ_getitem "TRELLO_API_TOKEN" in
  let* board_id := environ_getitem "TRELLO_BOARD_ID" in
  let* base := getenv_default "DLAI_TRELLO_BASE_URL" "https://api.trello.com" in
  let u := base +:+ "/1/boards/" +:+ board_id +:+ "/cards" in
  let query := [("key", api_key);
                ("token", api_token);
                ("fields", "name,idList,due,dateLastActivity,labels");
                ("attachments", "true");
                ("actions", "commentCard")] in
  let* response := http_get u query in
  let* _ := print_response u response in
  if Z.eqb (status_code response) 200
  then response_json response
  else ret (PyStr (Text.json_dumps fetch_error_payload)).

(** [CardDataFetcherTool._run(self, card_id)]. *)
Definition CardDataFetcherTool_run (card_id : string) : M PyVal :=
  let* api_key := environ_getitem "TRELLO_API_KEY" in
  let* api_token := environ_getitem "TRELLO_API_TOKEN" in
  let* base := getenv_default "DLAI_TRELLO_BASE_URL" "https://api.trello.com" in
  let u := base +:+ "/1/cards/" +:+ card_id in
  let query := [("key", api_key); ("token", api_token)] in
  let* response := http_get u query in
  let* _ := print_response u response in
  if Z.eqb (status_code response) 200
  then response_json response
  else ret (PyStr (Text.json_dumps fetch_error_payload)).

(** Calling a tool with the input the agent supplied. *)
Definition tool_run (t : Tool) (input : option string) : M PyVal :=
  match t, input with
  | BoardDataFetcherTool, _ => BoardDataFetcherTool_run
  | CardDataFetcherTool, Some card_id => CardDataFetcherTool_run card_id
  | CardDataFetcherTool, None =>
      raise (TypeError "_run() missing 1 required positional argument: 'card_id'")
  end.

(** *** The crew library, as far as the program relies on it

    An agent can only use the tools it was constructed with; a tool that
    raises does not end the task, the agent sees the exception.  A crew
    runs its tasks in list order (the default sequential process), hands
    each one the previous output as context and stops at the first task
    that raises. *)

Definition find_tool (available : list Tool) (name : string) : option Tool :=
  List.find (fun t => String.eqb (tool_name t) name) available.

Fixpoint run_agent (available : list Tool) (p : AgentProg) (w : World)
  : Outcome string * World :=
  match p with
  | FinalAnswer answer => (Returned answer, w)
  | AgentRaise e => (Raised e, w)
  | UseTool name input continue =>
      match find_tool available name with
      | Some t =>
          let '(observation, w') := tool_run t input w in
          run_agent available (continue observation) w'
      | None => run_agent available (continue (Raised (ToolNotFound name))) w
      end
  end.

(** One task: run its agent on its configuration and the context. *)
Definition execute_task (t : Task) (context : string) : M TaskOutput :=
  let* _ := emit (EvTaskStart t context) in
  fun w =>
    let '(out, w') :=
      run_agent (tools (agent t))
                (llm (agent_config (agent t)) (task_config t) context) w in
    let w'' := mkWorld (environ w') (events w' ++ [EvTaskEnd t out]) in
    match out with
    | Returned answer => (Returned (mkTaskOutput answer t), w'')
    | Raised e => (Raised e, w'')
    end.

Fixpoint execute_tasks (tasks : list Task) (context : string)
         (done : list TaskOutput) : M (list TaskOutput) :=
  match tasks with
  | [] => ret done
  | t :: rest =>
      let* out := execute_task t context in
      execute_tasks rest (task_raw out) (done ++ [out])
  end.

(** [crew.kickoff()]: the crew's [raw] is the last task's. *)
Definition kickoff (crew : Crew) : M CrewOutput :=
  let* outs := execute_tasks (crew_tasks crew) EmptyString [] in
  ret (mkCrewOutput (from_option task_raw EmptyString (last outs)) outs).

(** *** trello_board_app.py *)

(** [value[key]] for a value that came out of YAML. *)
Definition subscript (value : PyVal) (key : string) : Outcome PyVal :=
  match value with
  | PyDict items =>
      match dict_get items key with
      | Some v => Returned v
      | None => Raised (KeyError key)
      end
  | PyNone => Raised (TypeError "'NoneType' object is not subscriptable")
  | PyBool _ => Raised (TypeError "'bool' object is not subscriptable")
  | PyInt _ => Raised (TypeError "'int' object is not subscriptable")
  | PyStr _ => Raised (TypeError "string indices must be integers")
  | PyList _ => Raised (TypeError "list indices must be integers or slices, not str")
  end.

Definition py_getitem (value : PyVal) (key : string) : M PyVal :=
  fun w => (subscript value key, w).

(** [with open(file_path, 'r') as file: ... file.read()]. *)
Definition open_read (path : string) : M string :=
  match read_file path with
  | Some text => ret text
  | None => raise (FileNotFoundError path)
  end.

(** The [files] dict of [load_yaml_configs]. *)
Definition config_files : list (string * string) :=
  [("agents", "config/agents.yaml"); ("tasks", "config/tasks.yaml")].

(** The loop of [load_yaml_configs]: a [YAMLError] is reported and turned
    into [None]; a missing file is not caught. *)
Fixpoint load_yaml_loop (files : list (string * string))
         (configs : list (string * PyVal)) : M PyVal :=
  match files with
  | [] => ret (PyDict configs)
  | (config_type, file_path) :: rest =>
      let* text := open_read file_path in
      match yaml_safe_load text with
      | inr doc => load_yaml_loop rest (dict_set configs config_type doc)
      | inl e =>
          let* _ := st_error ("Error parsing YAML file " +:+ file_path
                              +:+ ": " +:+ e) in
          ret PyNone
      end
  end.

Definition load_yaml_configs : M PyVal := load_yaml_loop config_files [].

(** [create_agents(agents_config)]. *)
Definition create_agents (agents_config : PyVal) : M (Agent * Agent) :=
  let* collection_cfg := py_getitem agents_config "data_collection_agent" in
  let data_collection_agent :=
    mkAgent collection_cfg [BoardDataFetcherTool; CardDataFetcherTool] in
  let* analysis_cfg := py_getitem agents_config "analysis_agent" in
  let analysis_agent := mkAgent analysis_cfg [] in
  ret (data_collection_agent, analysis_agent).

(** [create_tasks(tasks_config, data_collection_agent, analysis_agent)]. *)
Definition create_tasks (tasks_config : PyVal)
           (data_collection_agent analysis_agent : Agent)
  : M (Task * Task * Task) :=
  let* collection_cfg := py_getitem tasks_config "data_collection" in
  let data_collection := mkTask collection_cfg data_collection_agent in
  let* analysis_cfg := py_getitem tasks_config "data_analysis" in
  let data_analysis := mkTask analysis_cfg analysis_agent in
  let* report_cfg := py_getitem tasks_config "report_generation" in
  let report_generation := mkTask report_cfg analysis_agent in
  ret (data_collection, data_analysis, report_generation).

(** [generate_trello_report(api_key, api_token, board_id)]; the result is
    the report text or [None]. *)
Definition generate_trello_report (api_key api_token board_id : option string)
  : M (option string) :=
  let* _ := environ_setitem "TRELLO_API_KEY" api_key in
  let* _ := environ_setitem "TRELLO_API_TOKEN" api_token in
  let* _ := environ_setitem "TRELLO_BOARD_ID" board_id in
  let* configs := load_yaml_configs in
  if negb (py_truthy configs) then
    let* _ := st_error "Failed to load configurations" in
    ret None
  else
    let* agents_config := py_getitem configs "agents" in
    let* '(data_collection_agent, analysis_agent) := create_agents agents_config in
    let* tasks_config := py_getitem configs "tasks" in
    let* '(data_collection, data_analysis, report_generation) :=
      create_tasks tasks_config data_collection_agent analysis_agent in
    let crew := mkCrew [data_collection_agent; analysis_agent]
                       [data_collection; data_analysis; report_generation] in
    try_except
      (let* result := kickoff crew in
       ret (Some (raw result)))
      (fun e =>
         let* _ := st_error ("Error generating report: " +:+ exc_str e) in
         ret None).

(** The part of [main] that deals with credentials and the button:
    lines 192-205 pick the credentials (environment for the sample board,
    the three text inputs otherwise), lines 268-290 validate them and
    call [generate_trello_report]. *)
Definition main_generate (board_type : BoardType)
           (key_input token_input board_input : string) : M unit :=
  match board_type with
  | SampleBoard =>
      let* api_key := getenv "TRELLO_API_KEY" in
      let* api_token := getenv "TRELLO_API_TOKEN" in
      let* board_id := getenv "TRELLO_BOARD_ID" in
      if negb (truthy_str api_key && truthy_str api_token && truthy_str board_id)
      then st_warning "Sample board credentials not found in .env file"
      else
        let* report := generate_trello_report api_key api_token board_id in
        if truthy_str report then
          let* _ := st_success "Sample Board Report Generated!" in
          st_markdown (default EmptyString report)
        else ret tt
  | MyTrelloBoard =>
      let api_key := Some key_input in
      let api_token := Some token_input in
      let board_id := Some board_input in
      if negb (truthy_str api_key && truthy_str api_token && truthy_str board_id)
      then st_warning "Please enter all Trello credentials"
      else
        let* report := generate_trello_report api_key api_token board_id in
        if truthy_str report then
          let* _ := st_success "Your Board Report Generated!" in
          st_markdown (default EmptyString report)
        else ret tt
  end.


(** [load_sample_board_image()]: the image as base64 text, or a warning
    and [None] when the file is not there. *)
Definition load_sample_board_image : M (option string) :=
  try_except
    (let* img := open_read "assets/sample_trello_board.png" in
     ret (Some (Base64.b64encode img)))
    (fun e =>
       match e with
       | FileNotFoundError _ =>
           let* _ := st_warning
                       "Sample board image not found. Please add an image to the assets folder." in
           ret None
       | _ => raise e
       end).

(** [load_css_file(css_file_path)]. *)
Definition load_css_file (css_file_path : string) : M (option string) :=
  try_except
    (let* text := open_read css_file_path in
     ret (Some text))
    (fun e =>
       match e with
       | FileNotFoundError _ =>
           let* _ := st_warning ("CSS file not found at " +:+ css_file_path) in
           ret None
       | _ => raise e
       end).

(** [load_dotenv()]: every variable of the [.env] file that the process
    environment does not have yet is added; what is set already stays. *)
Definition load_dotenv : M unit :=
  fun w => (Returned tt, mkWorld (environ w ∪ dotenv_values) (events w)).

(** [load_env_variables()]. *)
Definition load_env_variables : M unit :=
  let* _ := load_dotenv in
  let* key := getenv "OPENAI_API_KEY2" in
  let* _ := environ_setitem "OPENAI_API_KEY" key in
  let* model_name := getenv "OPENAI_MODEL_NAME" in
  environ_setitem "OPENAI_MODEL_NAME" model_name.

(** ** Auxiliary definitions for the statements *)

(** The base URL a tool uses in world [w]. *)
Definition base_url (w : World) : string :=
  default "https://api.trello.com" (environ w !! "DLAI_TRELLO_BASE_URL").

(** What a tool hands back once the response is there. *)
Definition fetch_result (response : Response) : Outcome PyVal :=
  if Z.eqb (status_code response) 200 then
    match json_loads (content response) with
    | Some v => Returned v
    | None => Raised (JSONDecodeError "Expecting value")
    end
  else Returned (PyStr (Text.json_dumps fetch_error_payload)).

(** The trace of one fetch: the request, then the three printed lines
    when a response arrived. *)
Definition fetch_events (req : Request) : list Event :=
  EvHttpGet req ::
  match requests_get req with
  | Returned response =>
      [EvStdout ("URL: " +:+ url req);
       EvStdout ("Response Status Code: "
                 +:+ Text.str_of_int (status_code response));
       EvStdout ("Response Content: " +:+ Text.repr_bytes (content response))]
  | Raised _ => []
  end.

Definition fetch_outcome (req : Request) : Outcome PyVal :=
  match requests_get req with
  | Returned response => fetch_result response
  | Raised e => Raised e
  end.

Definition board_request (base api_key api_token board_id : string) : Request :=
  mkRequest (base +:+ "/1/boards/" +:+ board_id +:+ "/cards")
            [("key", api_key);
             ("token", api_token);
             ("fields", "name,idList,due,dateLastActivity,labels");
             ("attachments", "true");
             ("actions", "commentCard")].

Definition card_request (base api_key api_token card_id : string) : Request :=
  mkRequest (base +:+ "/1/cards/" +:+ card_id)
            [("key", api_key); ("token", api_token)].

(** Events a fetch produces. *)
Definition is_fetch_event (ev : Event) : bool :=
  match ev with
  | EvStdout _ | EvHttpGet _ => true
  | _ => false
  end.

(** Events the crew produces: everything but front-end messages. *)
Definition is_crew_event (ev : Event) : bool :=
  match ev with
  | EvStreamlit _ _ => false
  | _ => true
  end.

(** The stage events of a sequential run of [tasks] that starts with
    context [context]: each task starts with the previous task's result,
    a task that raises ends the run, and a later task starts only after
    the one before it has returned.  The last argument is what the run
    amounts to: the last result, or the exception that stopped it. *)
Inductive sequential : list Task -> string -> list Event -> Outcome string -> Prop :=
| sequential_done (context : string) :
    sequential [] context [] (Returned context)
| sequential_raise (t : Task) (rest : list Task) (context : string) (e : PyExc) :
    sequential (t :: rest) context
               [EvTaskStart t context; EvTaskEnd t (Raised e)] (Raised e)
| sequential_step (t : Task) (rest : list Task) (context answer : string)
                  (evs : list Event) (res : Outcome string) :
    sequential rest answer evs res ->
    sequential (t :: rest) context
               (EvTaskStart t context :: EvTaskEnd t (Returned answer) :: evs) res.

(** The three tasks that [create_agents] and [create_tasks] build from
    the two configuration documents. *)
Definition stages_of (agents_config tasks_config : PyVal) (t1 t2 t3 : Task) : Prop :=
  exists collector analyst c1 c2 c3,
    subscript agents_config "data_collection_agent" = Returned collector
    /\ subscript agents_config "analysis_agent" = Returned analyst
    /\ subscript tasks_config "data_collection" = Returned c1
    /\ subscript tasks_config "data_analysis" = Returned c2
    /\ subscript tasks_config "report_generation" = Returned c3
    /\ t1 = mkTask c1 (mkAgent collector [BoardDataFetcherTool; CardDataFetcherTool])
    /\ t2 = mkTask c2 (mkAgent analyst [])
    /\ t3 = mkTask c3 (mkAgent analyst []).

(** The four ways a run can go, with the result and the events of each. *)
Inductive RunShape (out : Outcome (option string)) (evs : list Event) : Prop :=
| run_config_exception (e : PyExc) :
    out = Raised e -> evs = [] -> RunShape out evs
| run_yaml_error (msg : string) :
    out = Returned None ->
    evs = [EvStreamlit StError msg;
           EvStreamlit StError "Failed to load configurations"] ->
    RunShape out evs
| run_crew_failed (agents_config tasks_config : PyVal) (t1 t2 t3 : Task)
                  (crew_evs : list Event) (e : PyExc) :
    stages_of agents_config tasks_config t1 t2 t3 ->
    Forall (fun ev => is_crew_event ev = true) crew_evs ->
    sequential [t1; t2; t3] EmptyString (task_events_of crew_evs) (Raised e) ->
    out = Returned None ->
    evs = (crew_evs
           ++ [EvStreamlit StError ("Error generating report: " +:+ exc_str e)])%list ->
    RunShape out evs
| run_report (agents_config tasks_config : PyVal) (t1 t2 t3 : Task)
             (answer : string) :
    stages_of agents_config tasks_config t1 t2 t3 ->
    Forall (fun ev => is_crew_event ev = true) evs ->
    sequential [t1; t2; t3] EmptyString (task_events_of evs) (Returned answer) ->
    out = Returned (Some answer) ->
    RunShape out evs.

(** The first of [names] that the environment does not have. *)
Definition first_missing (names : list string) (env : gmap string string)
  : option string :=
  List.find (fun name => match env !! name with None => true | Some _ => false end)
            names.

(** A request that authenticates with key [k] and token [t]. *)
Definition carries_credentials (k t : string) (req : Request) : Prop :=
  exists rest, params req = ("key", k) :: ("token", t) :: rest.

(** What [main] does with valid credentials: run the report and show it
    under the given success message when it is a non-empty text. *)
Definition report_and_render (success_msg : string)
           (api_key api_token board_id : option string) : M unit :=
  let* report := generate_trello_report api_key api_token board_id in
  if truthy_str report then
    let* _ := st_success success_msg in
    st_markdown (default EmptyString report)
  else ret tt.

(** ** Properties of the fetch tools *)

Lemma BoardDataFetcherTool_run_eq (w : World) (k t b : string) :
  environ w !! "TRELLO_API_KEY" = Some k ->
  environ w !! "TRELLO_API_TOKEN" = Some t ->
  environ w !! "TRELLO_BOARD_ID" = Some b ->
  let req := board_request (base_url w) k t b in
  BoardDataFetcherTool_run w = (fetch_outcome req, extend w (fetch_events req)).
Proof.
  intros Hk Ht Hb req.
  unfold BoardDataFetcherTool_run, bind, environ_getitem, getenv_default.
  rewrite Hk, Ht, Hb. unfold http_get; cbn [environ events].
  fold (base_url w). fold (board_request (base_url w) k t b). fold req.
  unfold fetch_outcome, fetch_events, extend.
  destruct (requests_get req) as [response|e]; [|reflexivity].
  unfold print_response, bind, print, emit; cbn [environ events].
  rewrite <- !app_assoc. cbn [app].
  unfold fetch_result, response_json, ret, raise.
  destruct (Z.eqb (status_code response) 200); [|reflexivity].
  destruct (json_loads (content response)); reflexivity.
Qed.

Lemma CardDataFetcherTool_run_eq (w : World) (k t card_id : string) :
  environ w !! "TRELLO_API_KEY" = Some k ->
  environ w !! "TRELLO_API_TOKEN" = Some t ->
  let req := card_request (base_url w) k t card_id in
  CardDataFetcherTool_run card_id w
  = (fetch_outcome req, extend w (fetch_events req)).
Proof.
  intros Hk Ht req.
  unfold CardDataFetcherTool_run, bind, environ_getitem, getenv_default.
  rewrite Hk, Ht. unfold http_get; cbn [environ events].
  fold (base_url w). fold (card_request (base_url w) k t card_id). fold req.
  unfold fetch_outcome, fetch_events, extend.
  destruct (requests_get req) as [response|e]; [|reflexivity].
  unfold print_response, bind, print, emit; cbn [environ events].
  rewrite <- !app_assoc. cbn [app].
  unfold fetch_result, response_json, ret, raise.
  destruct (Z.eqb (status_code response) 200); [|reflexivity].
  destruct (json_loads (content response)); reflexivity.
Qed.

(** ** Frame properties: what tools and agents can touch *)

Lemma extend_nil (w : World) : extend w [] = w.
Proof. destruct w; unfold extend; cbn. by rewrite app_nil_r. Qed.

Lemma extend_extend (w : World) (evs1 evs2 : list Event) :
  extend (extend w evs1) evs2 = extend w (evs1 ++ evs2).
Proof. unfold extend; cbn. by rewrite app_assoc. Qed.

Lemma fetch_events_fetch (req : Request) :
  Forall (fun ev => is_fetch_event ev = true) (fetch_events req).
Proof.
  unfold fetch_events. destruct (requests_get req); repeat constructor.
Qed.

Lemma tool_run_frame (t : Tool) (input : option string) (w : World) :
  exists evs, snd (tool_run t input w) = extend w evs
              /\ Forall (fun ev => is_fetch_event ev = true) evs.
Proof.
  destruct t; cbn [tool_run].
  - destruct (environ w !! "TRELLO_API_KEY") as [k|] eqn:Hk;
    [destruct (environ w !! "TRELLO_API_TOKEN") as [t|] eqn:Ht;
     [destruct (environ w !! "TRELLO_BOARD_ID") as [b|] eqn:Hb|]|].
    + rewrite (BoardDataFetcherTool_run_eq w k t b Hk Ht Hb). cbn [snd].
      eexists; split; [reflexivity|apply fetch_events_fetch].
    + exists []. rewrite extend_nil. split; [|constructor].
      unfold BoardDataFetcherTool_run, bind, environ_getitem.
      by rewrite Hk, Ht, Hb.
    + exists []. rewrite extend_nil. split; [|constructor].
      unfold BoardDataFetcherTool_run, bind, environ_getitem.
      by rewrite Hk, Ht.
    + exists []. rewrite extend_nil. split; [|constructor].
      unfold BoardDataFetcherTool_run, bind, environ_getitem.
      by rewrite Hk.
  - destruct input as [card_id|];
      [|exists []; rewrite extend_nil; split; [reflexivity|constructor]].
    destruct (environ w !! "TRELLO_API_KEY") as [k|] eqn:Hk;
    [destruct (environ w !! "TRELLO_API_TOKEN") as [t|] eqn:Ht|].
    + rewrite (CardDataFetcherTool_run_eq w k t card_id Hk Ht). cbn [snd].
      eexists; split; [reflexivity|apply fetch_events_fetch].
    + exists []. rewrite extend_nil. split; [|constructor].
      unfold CardDataFetcherTool_run, bind, environ_getitem.
      by rewrite Hk, Ht.
    + exists []. rewrite extend_nil. split; [|constructor].
      unfold CardDataFetcherTool_run, bind, environ_getitem.
      by rewrite Hk.
Qed.

(** An agent changes the world only through the tools it runs. *)
Lemma run_agent_frame (available : list Tool) (p : AgentProg) :
  forall w, exists evs,
    snd (run_agent available p w) = extend w evs
    /\ Forall (fun ev => is_fetch_event ev = true) evs.
Proof.
  induction p as [answer|e|name input continue IH]; intros w.
  - exists []. rewrite extend_nil. split; [reflexivity|constructor].
  - exists []. rewrite extend_nil. split; [reflexivity|constructor].
  - cbn [run_agent]. destruct (find_tool available name) as [t|].
    + destruct (tool_run_frame t input w) as (evs1 & Hw1 & Hf1).
      destruct (tool_run t input w) as [observation w1]. cbn [snd] in Hw1.
      destruct (IH observation w1) as (evs2 & Hw2 & Hf2).
      exists (evs1 ++ evs2)%list. split.
      * rewrite Hw2, Hw1. apply extend_extend.
      * by apply Forall_app.
    + apply IH.
Qed.

(** An agent without tools leaves the world as it found it. *)
Lemma run_agent_no_tools (p : AgentProg) :
  forall w, snd (run_agent [] p w) = w.
Proof.
  induction p as [answer|e|name input continue IH]; intros w; cbn; auto.
Qed.

(** ** The crew's trace *)

Lemma task_events_of_app (evs1 evs2 : list Event) :
  task_events_of (evs1 ++ evs2) = (task_events_of evs1 ++ task_events_of evs2)%list.
Proof. apply List.filter_app. Qed.

Lemma task_events_of_fetch (evs : list Event) :
  Forall (fun ev => is_fetch_event ev = true) evs -> task_events_of evs = [].
Proof.
  induction 1 as [|ev evs Hev _ IH]; [reflexivity|].
  cbn. destruct ev; try discriminate; exact IH.
Qed.

Lemma fetch_event_crew_event (evs : list Event) :
  Forall (fun ev => is_fetch_event ev = true) evs ->
  Forall (fun ev => is_crew_event ev = true) evs.
Proof.
  apply List.Forall_impl. intros ev; destruct ev; cbn; congruence.
Qed.

(** One task: a start event, the agent's fetches, an end event. *)
Lemma execute_task_eq (t : Task) (context : string) (w : World) :
  exists evs,
    Forall (fun ev => is_fetch_event ev = true) evs
    /\ let out := fst (run_agent (tools (agent t))
                         (llm (agent_config (agent t)) (task_config t) context)
                         (extend w [EvTaskStart t context])) in
       execute_task t context w
       = (match out with
          | Returned answer => Returned (mkTaskOutput answer t)
          | Raised e => Raised e
          end,
          extend w ([EvTaskStart t context] ++ evs ++ [EvTaskEnd t out])).
Proof.
  unfold execute_task, bind, emit. fold (extend w [EvTaskStart t context]).
  destruct (run_agent_frame (tools (agent t))
              (llm (agent_config (agent t)) (task_config t) context)
              (extend w [EvTaskStart t context])) as (evs & Hw & Hf).
  exists evs. split; [exact Hf|]. cbn zeta.
  destruct (run_agent _ _ _) as [out w1]. cbn [fst snd] in *. subst w1.
  fold (extend (extend w [EvTaskStart t context] ) evs).
  change (mkWorld (environ (extend (extend w [EvTaskStart t context]) evs))
                  (events (extend (extend w [EvTaskStart t context]) evs)
                   ++ [EvTaskEnd t out]))
    with (extend (extend (extend w [EvTaskStart t context]) evs) [EvTaskEnd t out]).
  rewrite !extend_extend.
  destruct out; reflexivity.
Qed.

Lemma execute_tasks_trace (tasks : list Task) :
  forall (context : string) (done : list TaskOutput) (w : World),
    from_option task_raw EmptyString (last done) = context ->
    exists evs res,
      snd (execute_tasks tasks context done w) = extend w evs
      /\ Forall (fun ev => is_crew_event ev = true) evs
      /\ sequential tasks context (task_events_of evs) res
      /\ match res with
         | Returned answer =>
             exists outs,
               fst (execute_tasks tasks context done w) = Returned outs
               /\ from_option task_raw EmptyString (last outs) = answer
         | Raised e => fst (execute_tasks tasks context done w) = Raised e
         end.
Proof.
  induction tasks as [|t rest IH]; intros context done w Hctx.
  - exists [], (Returned context). cbn. rewrite extend_nil.
    repeat split; [constructor|constructor|]. by exists done.
  - destruct (execute_task_eq t context w) as (evs1 & Hf1 & Heq).
    cbn zeta in Heq.
    assert (Hstep : execute_tasks (t :: rest) context done w
                    = match execute_task t context w with
                      | (Returned out, w') =>
                          execute_tasks rest (task_raw out) (done ++ [out]) w'
                      | (Raised e, w') => (Raised e, w')
                      end) by reflexivity.
    rewrite Hstep, Heq. clear Hstep Heq.
    destruct (fst (run_agent _ _ _)) as [answer|e].
    + destruct (IH answer (done ++ [mkTaskOutput answer t])%list
                   (extend w ([EvTaskStart t context] ++ evs1
                              ++ [EvTaskEnd t (Returned answer)])))
        as (evs2 & res & Hw & Hc & Hseq & Hres).
      { by rewrite last_snoc. }
      cbn [task_raw].
      exists (([EvTaskStart t context] ++ evs1
               ++ [EvTaskEnd t (Returned answer)]) ++ evs2)%list, res.
      repeat split.
      * rewrite Hw. apply extend_extend.
      * apply Forall_app; split; [|exact Hc].
        constructor; [reflexivity|].
        apply Forall_app; split; [by apply fetch_event_crew_event|].
        by repeat constructor.
      * rewrite !task_events_of_app, (task_events_of_fetch evs1 Hf1).
        cbn. by constructor.
      * exact Hres.
    + exists ([EvTaskStart t context] ++ evs1 ++ [EvTaskEnd t (Raised e)])%list,
             (Raised e).
      repeat split.
      * constructor; [reflexivity|].
        apply Forall_app; split; [by apply fetch_event_crew_event|].
        by repeat constructor.
      * rewrite !task_events_of_app, (task_events_of_fetch evs1 Hf1).
        cbn. constructor.
Qed.

(** [crew.kickoff()] in terms of its trace. *)
Lemma kickoff_trace (crew : Crew) (w : World) :
  exists evs res,
    snd (kickoff crew w) = extend w evs
    /\ Forall (fun ev => is_crew_event ev = true) evs
    /\ sequential (crew_tasks crew) EmptyString (task_events_of evs) res
    /\ match res with
       | Returned answer =>
           exists outs, fst (kickoff crew w) = Returned (mkCrewOutput answer outs)
       | Raised e => fst (kickoff crew w) = Raised e
       end.
Proof.
  destruct (execute_tasks_trace (crew_tasks crew) EmptyString [] w eq_refl)
    as (evs & res & Hw & Hc & Hseq & Hres).
  exists evs, res. unfold kickoff, bind.
  destruct (execute_tasks (crew_tasks crew) EmptyString [] w) as [[outs|e] w1];
    cbn [fst snd] in *; repeat split; auto.
  - destruct res as [answer|e]; [|discriminate].
    destruct Hres as (outs' & Heq & Hlast). injection Heq as <-.
    exists outs. unfold ret. by rewrite Hlast.
  - destruct res as [answer|e']; [|congruence].
    by destruct Hres as (outs' & Heq & _).
Qed.

(** ** The shape of a run of [generate_trello_report] *)

Lemma load_yaml_configs_cases (w : World) :
  (exists path, load_yaml_configs w = (Raised (FileNotFoundError path), w))
  \/ (exists msg,
        load_yaml_configs w = (Returned PyNone, extend w [EvStreamlit StError msg]))
  \/ (exists agents_config tasks_config,
        load_yaml_configs w
        = (Returned (PyDict [("agents", agents_config); ("tasks", tasks_config)]), w)).
Proof.
  unfold load_yaml_configs, config_files. cbn [load_yaml_loop].
  unfold bind, open_read.
  destruct (read_file "config/agents.yaml") as [text1|];
    [|left; eexists; reflexivity].
  cbn. destruct (yaml_safe_load text1) as [e1|doc1];
    [right; left; eexists; reflexivity|].
  destruct (read_file "config/tasks.yaml") as [text2|];
    [|left; eexists; reflexivity].
  cbn. destruct (yaml_safe_load text2) as [e2|doc2];
    [right; left; eexists; reflexivity|].
  right; right. by exists doc1, doc2.
Qed.

Lemma generate_trello_report_shape (k t b : string) (w : World) :
  exists evs,
    snd (generate_trello_report (Some k) (Some t) (Some b) w)
    = mkWorld (credentials_env k t b (environ w)) (events w ++ evs)
    /\ RunShape (fst (generate_trello_report (Some k) (Some t) (Some b) w)) evs.
Proof.
  set (w0 := mkWorld (credentials_env k t b (environ w)) (events w)).
  change (mkWorld (credentials_env k t b (environ w))) with
    (fun evs => mkWorld (environ w0) evs).
  change (events w) with (events w0). cbn beta.
  change (generate_trello_report (Some k) (Some t) (Some b) w) with
    ((let* configs := load_yaml_configs in
      if negb (py_truthy configs) then
        let* _ := st_error "Failed to load configurations" in
        ret None
      else
        let* agents_config := py_getitem configs "agents" in
        let* '(data_collection_agent, analysis_agent) := create_agents agents_config in
        let* tasks_config := py_getitem configs "tasks" in
        let* '(data_collection, data_analysis, report_generation) :=
          create_tasks tasks_config data_collection_agent analysis_agent in
        let crew := mkCrew [data_collection_agent; analysis_agent]
                           [data_collection; data_analysis; report_generation] in
        try_except
          (let* result := kickoff crew in
           ret (Some (raw result)))
          (fun e =>
             let* _ := st_error ("Error generating report: " +:+ exc_str e) in
             ret None)) w0).
  generalize w0; clear w0 w; intros w.
  match goal with
  | |- exists evs, snd ?run = _ /\ RunShape (fst _) evs =>
      enough (exists out evs, run = (out, extend w evs) /\ RunShape out evs)
        as (out & evs & -> & Hshape)
        by (exists evs; split; [reflexivity|exact Hshape])
  end.
  unfold bind at 1.
  destruct (load_yaml_configs_cases w)
    as [(path & Hload)|[(msg & Hload)|(agents_config & tasks_config & Hload)]];
    rewrite Hload; clear Hload.
  { eexists _, []. rewrite extend_nil. split; [reflexivity|].
    eapply run_config_exception; reflexivity. }
  { eexists _, _. split; [|eapply run_yaml_error; reflexivity].
    cbn. unfold extend; cbn. by rewrite <- app_assoc. }
  cbn [py_truthy length Nat.eqb negb].
  unfold bind at 1, py_getitem at 1.
  cbn [subscript dict_get String.eqb Ascii.eqb Bool.eqb].
  unfold bind at 1, create_agents, bind, py_getitem, ret.
  destruct (subscript agents_config "data_collection_agent") as [collector|e] eqn:Hc;
    [|eexists _, []; rewrite extend_nil; split;
      [reflexivity|eapply run_config_exception; reflexivity]].
  destruct (subscript agents_config "analysis_agent") as [analyst|e] eqn:Ha;
    [|eexists _, []; rewrite extend_nil; split;
      [reflexivity|eapply run_config_exception; reflexivity]].
  cbn [subscript dict_get String.eqb Ascii.eqb Bool.eqb].
  unfold create_tasks, bind, py_getitem, ret.
  destruct (subscript tasks_config "data_collection") as [c1|e] eqn:H1;
    [|eexists _, []; rewrite extend_nil; split;
      [reflexivity|eapply run_config_exception; reflexivity]].
  destruct (subscript tasks_config "data_analysis") as [c2|e] eqn:H2;
    [|eexists _, []; rewrite extend_nil; split;
      [reflexivity|eapply run_config_exception; reflexivity]].
  destruct (subscript tasks_config "report_generation") as [c3|e] eqn:H3;
    [|eexists _, []; rewrite extend_nil; split;
      [reflexivity|eapply run_config_exception; reflexivity]].
  set (collection_agent := mkAgent collector [BoardDataFetcherTool; CardDataFetcherTool]).
  set (analysis_agent := mkAgent analyst []).
  set (crew := mkCrew _ _).
  assert (Hstages : stages_of agents_config tasks_config
                      (mkTask c1 collection_agent) (mkTask c2 analysis_agent)
                      (mkTask c3 analysis_agent)).
  { by exists collector, analyst, c1, c2, c3. }
  unfold try_except.
  destruct (kickoff_trace crew w) as (evs & res & Hw & Hcrew & Hseq & Hres).
  destruct (kickoff crew w) as [[result|e] w1]; cbn [fst snd] in *; subst w1.
  - destruct res as [answer|e]; [|discriminate].
    destruct Hres as (outs & Heq). injection Heq as ->.
    eexists _, evs. split; [reflexivity|].
    by eapply run_report.
  - destruct res as [answer|e']; [by destruct Hres|]. injection Hres as ->.
    eexists _, _. split; [|by eapply run_crew_failed].
    unfold st_error, emit, extend; cbn. by rewrite <- app_assoc.
Qed.

(** ** The fetch tools: requests, printed lines, results *)

Lemma http_of_app (evs1 evs2 : list Event) :
  http_of (evs1 ++ evs2) = (http_of evs1 ++ http_of evs2)%list.
Proof. apply omap_app. Qed.

Lemma stdout_of_app (evs1 evs2 : list Event) :
  stdout_of (evs1 ++ evs2) = (stdout_of evs1 ++ stdout_of evs2)%list.
Proof. apply omap_app. Qed.

Lemma http_of_fetch_events (req : Request) : http_of (fetch_events req) = [req].
Proof. unfold fetch_events. by destruct (requests_get req). Qed.

Lemma fetch_result_not_200 (response : Response) :
  status_code response <> 200 ->
  fetch_result response = Returned (PyStr (Text.json_dumps fetch_error_payload)).
Proof.
  intros Hstatus. unfold fetch_result.
  destruct (Z.eqb_spec (status_code response) 200); [contradiction|reflexivity].
Qed.

(** C1 (as the code has it): on every status other than 200 both tools
    return normally, and what they return is the same fixed JSON text; the
    text does not mention the status and nothing is raised. *)
Theorem fetch_failure_is_plain_value
        (w : World) (k t b card_id : string) (rb rc : Response) :
  environ w !! "TRELLO_API_KEY" = Some k ->
  environ w !! "TRELLO_API_TOKEN" = Some t ->
  environ w !! "TRELLO_BOARD_ID" = Some b ->
  requests_get (board_request (base_url w) k t b) = Returned rb ->
  requests_get (card_request (base_url w) k t card_id) = Returned rc ->
  status_code rb <> 200 ->
  status_code rc <> 200 ->
  fst (BoardDataFetcherTool_run w)
  = Returned (PyStr (Text.json_dumps fetch_error_payload))
  /\ fst (CardDataFetcherTool_run card_id w)
     = Returned (PyStr (Text.json_dumps fetch_error_payload)).
Proof.
  intros Hk Ht Hb Hrb Hrc Hsb Hsc.
  rewrite (BoardDataFetcherTool_run_eq w k t b Hk Ht Hb).
  rewrite (CardDataFetcherTool_run_eq w k t card_id Hk Ht).
  cbn [fst]. unfold fetch_outcome. rewrite Hrb, Hrc.
  by rewrite !fetch_result_not_200.
Qed.

(** C8: with the three credentials in the environment,
    [BoardDataFetcherTool._run] issues exactly one request, to
    [<base>/1/boards/<board_id>/cards], asking for the fields
    [name,idList,due,dateLastActivity,labels], the attachments and the
    [commentCard] actions; when the answer has status 200 and its body
    decodes to a list of cards, that list is the result: the same entries
    in the same order. *)
Theorem fetch_board_one_request (w : World) (k t b : string) :
  environ w !! "TRELLO_API_KEY" = Some k ->
  environ w !! "TRELLO_API_TOKEN" = Some t ->
  environ w !! "TRELLO_BOARD_ID" = Some b ->
  let req :=
    mkRequest (base_url w +:+ "/1/boards/" +:+ b +:+ "/cards")
              [("key", k);
               ("token", t);
               ("fields", "name,idList,due,dateLastActivity,labels");
               ("attachments", "true");
               ("actions", "commentCard")] in
  http_of (events (snd (BoardDataFetcherTool_run w)))
  = (http_of (events w) ++ [req])%list
  /\ forall (response : Response) (cards : list PyVal),
      requests_get req = Returned response ->
      status_code response = 200 ->
      json_loads (content response) = Some (PyList cards) ->
      fst (BoardDataFetcherTool_run w) = Returned (PyList cards).
Proof.
  intros Hk Ht Hb req.
  rewrite (BoardDataFetcherTool_run_eq w k t b Hk Ht Hb).
  change (board_request (base_url w) k t b) with req. cbn [fst snd].
  split.
  - unfold extend; cbn [events]. by rewrite http_of_app, http_of_fetch_events.
  - intros response cards Hresp Hstatus Hjson.
    unfold fetch_outcome, fetch_result. by rewrite Hresp, Hstatus, Hjson.
Qed.

(** C9 (as the code has it): a fetch prints three lines: the URL without
    its query string (so with the board or card id, without key and token),
    the status code, and the whole response content as [repr] shows it. *)
Theorem fetch_prints_url_status_content
        (w : World) (k t b card_id : string) (rb rc : Response) :
  environ w !! "TRELLO_API_KEY" = Some k ->
  environ w !! "TRELLO_API_TOKEN" = Some t ->
  environ w !! "TRELLO_BOARD_ID" = Some b ->
  requests_get (board_request (base_url w) k t b) = Returned rb ->
  requests_get (card_request (base_url w) k t card_id) = Returned rc ->
  stdout_of (events (snd (BoardDataFetcherTool_run w)))
  = (stdout_of (events w)
     ++ ["URL: " +:+ (base_url w +:+ "/1/boards/" +:+ b +:+ "/cards");
         "Response Status Code: " +:+ Text.str_of_int (status_code rb);
         "Response Content: " +:+ Text.repr_bytes (content rb)])%list
  /\ stdout_of (events (snd (CardDataFetcherTool_run card_id w)))
     = (stdout_of (events w)
        ++ ["URL: " +:+ (base_url w +:+ "/1/cards/" +:+ card_id);
            "Response Status Code: " +:+ Text.str_of_int (status_code rc);
            "Response Content: " +:+ Text.repr_bytes (content rc)])%list.
Proof.
  intros Hk Ht Hb Hrb Hrc.
  rewrite (BoardDataFetcherTool_run_eq w k t b Hk Ht Hb).
  rewrite (CardDataFetcherTool_run_eq w k t card_id Hk Ht).
  cbn [snd]. unfold extend, fetch_events; cbn [events].
  rewrite Hrb, Hrc, !stdout_of_app. split; reflexivity.
Qed.

(** C10: on every status other than 200 both tools return the same [str],
    the JSON text of [{"error": "Failed to fetch card data, ..."}]; on 200
    they return the decoded body.  Both come back as ordinary return
    values, and the error text is a [str], not a [dict]. *)
Theorem fetch_result_by_status
        (w : World) (k t b card_id : string) (rb rc : Response) :
  environ w !! "TRELLO_API_KEY" = Some k ->
  environ w !! "TRELLO_API_TOKEN" = Some t ->
  environ w !! "TRELLO_BOARD_ID" = Some b ->
  requests_get (board_request (base_url w) k t b) = Returned rb ->
  requests_get (card_request (base_url w) k t card_id) = Returned rc ->
  (status_code rb <> 200 ->
   fst (BoardDataFetcherTool_run w) = Returned (PyStr fetch_error_text))
  /\ (status_code rc <> 200 ->
      fst (CardDataFetcherTool_run card_id w) = Returned (PyStr fetch_error_text))
  /\ (forall v, status_code rb = 200 -> json_loads (content rb) = Some v ->
                fst (BoardDataFetcherTool_run w) = Returned v)
  /\ (forall v, status_code rc = 200 -> json_loads (content rc) = Some v ->
                fst (CardDataFetcherTool_run card_id w) = Returned v)
  /\ Text.json_dumps fetch_error_payload = fetch_error_text
  /\ forall items, PyStr fetch_error_text <> PyDict items.
Proof.
  intros Hk Ht Hb Hrb Hrc.
  rewrite (BoardDataFetcherTool_run_eq w k t b Hk Ht Hb).
  rewrite (CardDataFetcherTool_run_eq w k t card_id Hk Ht).
  cbn [fst]. unfold fetch_outcome. rewrite Hrb, Hrc.
  repeat split.
  - intros Hs. by rewrite fetch_result_not_200.
  - intros Hs. by rewrite fetch_result_not_200.
  - intros v Hs Hv. unfold fetch_result. by rewrite Hs, Hv.
  - intros v Hs Hv. unfold fetch_result. by rewrite Hs, Hv.
  - discriminate.
Qed.


(** ** The pipeline *)

Lemma sequential_three_returned
      (s1 s2 s3 t1 t2 t3 : Task) (c1 c2 c3 r1 r2 r3 : string)
      (res : Outcome string) :
  sequential [s1; s2; s3] EmptyString
             [EvTaskStart t1 c1; EvTaskEnd t1 (Returned r1);
              EvTaskStart t2 c2; EvTaskEnd t2 (Returned r2);
              EvTaskStart t3 c3; EvTaskEnd t3 (Returned r3)] res ->
  res = Returned r3.
Proof.
  intros H.
  inversion H as [| |? ? ? ? ? ? H2]; subst; clear H.
  inversion H2 as [| |? ? ? ? ? ? H3]; subst; clear H2.
  inversion H3 as [| |? ? ? ? ? ? H4]; subst; clear H3.
  by inversion H4.
Qed.

Lemma task_events_of_streamlit (evs : list Event) (kind : StKind) (msg : string) :
  task_events_of (evs ++ [EvStreamlit kind msg]) = task_events_of evs.
Proof. rewrite task_events_of_app. cbn. apply app_nil_r. Qed.

(** C2 (as the code has it): a run either raises (a missing configuration
    file or key; nothing has happened yet), or returns [None] right after a
    message to [st.error] (a YAML error, or an exception out of
    [crew.kickoff()]), or returns a report text, and then only after all
    three tasks have returned. *)
Theorem generate_trello_report_outcomes (k t b : string) (w : World) :
  exists evs,
    events (snd (generate_trello_report (Some k) (Some t) (Some b) w))
    = (events w ++ evs)%list
    /\ match fst (generate_trello_report (Some k) (Some t) (Some b) w) with
       | Raised e => evs = []
       | Returned None => exists msg, last evs = Some (EvStreamlit StError msg)
       | Returned (Some report) =>
           exists t1 t2 t3,
             sequential [t1; t2; t3] EmptyString (task_events_of evs)
                        (Returned report)
       end.
Proof.
  destruct (generate_trello_report_shape k t b w) as (evs & Hw & Hshape).
  exists evs. rewrite Hw. split; [reflexivity|].
  destruct Hshape as [e -> ->|msg -> ->|ac tc t1 t2 t3 crew_evs e _ _ _ -> ->
                     |ac tc t1 t2 t3 answer _ _ Hseq ->].
  - reflexivity.
  - by eexists.
  - eexists. by rewrite last_snoc.
  - by exists t1, t2, t3.
Qed.

(** C3: when the run's stage events are three tasks each started and
    returned, [generate_trello_report] returns the third task's text. *)
Theorem report_is_third_stage_text
        (k t b : string) (w : World) (evs : list Event)
        (t1 t2 t3 : Task) (c1 c2 c3 r1 r2 r3 : string) :
  events (snd (generate_trello_report (Some k) (Some t) (Some b) w))
  = (events w ++ evs)%list ->
  task_events_of evs
  = [EvTaskStart t1 c1; EvTaskEnd t1 (Returned r1);
     EvTaskStart t2 c2; EvTaskEnd t2 (Returned r2);
     EvTaskStart t3 c3; EvTaskEnd t3 (Returned r3)] ->
  fst (generate_trello_report (Some k) (Some t) (Some b) w) = Returned (Some r3).
Proof.
  intros Hevs Htasks.
  destruct (generate_trello_report_shape k t b w) as (evs' & Hw & Hshape).
  rewrite Hw in Hevs. cbn [events] in Hevs.
  apply app_inv_head in Hevs. subst evs'.
  destruct Hshape as [e _ ->|msg _ ->|ac tc s1 s2 s3 crew_evs e _ _ Hseq _ ->
                     |ac tc s1 s2 s3 answer _ _ Hseq ->].
  - discriminate.
  - discriminate.
  - rewrite task_events_of_streamlit in Htasks. rewrite Htasks in Hseq.
    by apply sequential_three_returned in Hseq.
  - rewrite Htasks in Hseq.
    apply sequential_three_returned in Hseq. by injection Hseq as ->.
Qed.








(** A task whose agent has no tools sends no request. *)
Lemma execute_task_no_tools (t : Task) (context : string) (w : World) :
  tools (agent t) = [] ->
  http_of (events (snd (execute_task t context w))) = http_of (events w).
Proof.
  intros Hnone. unfold execute_task, bind, emit. rewrite Hnone.
  set (p := llm _ _ _). set (w0 := mkWorld _ _).
  pose proof (run_agent_no_tools p w0) as Hframe.
  destruct (run_agent [] p w0) as [out w']. cbn [snd] in Hframe. subst w'.
  assert (Hhttp : http_of (events w0 ++ [EvTaskEnd t out]) = http_of (events w)).
  { subst w0. cbn [events]. rewrite !http_of_app. cbn. by rewrite !app_nil_r. }
  by destruct out.
Qed.

(** C5: the agent of the collection task has exactly the two fetch tools,
    the agent of the analysis and report tasks has none, and whatever an
    agent without tools attempts, running it changes nothing: no request
    is sent. *)
Theorem capability_isolation
        (agents_config tasks_config : PyVal) (a1 a2 : Agent) (t1 t2 t3 : Task)
        (w1 w1' w2 w2' : World) :
  create_agents agents_config w1 = (Returned (a1, a2), w1') ->
  create_tasks tasks_config a1 a2 w2 = (Returned (t1, t2, t3), w2') ->
  tools (agent t1) = [BoardDataFetcherTool; CardDataFetcherTool]
  /\ tools (agent t2) = []
  /\ tools (agent t3) = []
  /\ (forall (p : AgentProg) (w : World),
         snd (run_agent (tools (agent t2)) p w) = w
         /\ snd (run_agent (tools (agent t3)) p w) = w)
  /\ (forall (context : string) (w : World),
         http_of (events (snd (execute_task t2 context w))) = http_of (events w)
         /\ http_of (events (snd (execute_task t3 context w))) = http_of (events w)).
Proof.
  unfold create_agents, create_tasks, bind, py_getitem, ret.
  intros Hagents Htasks.
  destruct (subscript agents_config "data_collection_agent"); [|discriminate].
  destruct (subscript agents_config "analysis_agent"); [|discriminate].
  injection Hagents as <- <- _.
  destruct (subscript tasks_config "data_collection"); [|discriminate].
  destruct (subscript tasks_config "data_analysis"); [|discriminate].
  destruct (subscript tasks_config "report_generation"); [|discriminate].
  injection Htasks as <- <- <- _. cbn [agent tools].
  repeat split; try apply run_agent_no_tools;
    by apply execute_task_no_tools.
Qed.

(** C6 (as the code has it): the check for missing credentials is in
    [main].  When one of the three is unset or empty, [main] shows a
    warning and does nothing else: [generate_trello_report] is not called
    and no request is sent. *)
Theorem main_guards_credentials
        (board_type : BoardType) (key_input token_input board_input : string)
        (w : World) :
  match board_type with
  | SampleBoard =>
      truthy_str (environ w !! "TRELLO_API_KEY")
      && truthy_str (environ w !! "TRELLO_API_TOKEN")
      && truthy_str (environ w !! "TRELLO_BOARD_ID")
  | MyTrelloBoard =>
      truthy_str (Some key_input) && truthy_str (Some token_input)
      && truthy_str (Some board_input)
  end = false ->
  exists msg,
    main_generate board_type key_input token_input board_input w
    = (Returned tt, extend w [EvStreamlit StWarning msg])
    /\ http_of (events (extend w [EvStreamlit StWarning msg])) = http_of (events w).
Proof.
  intros Hmissing.
  destruct board_type; unfold main_generate, bind, getenv; cbn [fst snd];
    rewrite Hmissing; cbn [negb]; eexists; (split; [reflexivity|]);
    unfold extend; cbn [events]; rewrite http_of_app; cbn; by rewrite app_nil_r.
Qed.

(** C7 (as the code has it): a run writes the three credentials to the
    process environment and leaves them there; nothing else in the
    environment changes. *)
Theorem credentials_written_to_environ (k t b : string) (w : World) :
  let env' := environ (snd (generate_trello_report (Some k) (Some t) (Some b) w)) in
  env' = <["TRELLO_BOARD_ID" := b]>
           (<["TRELLO_API_TOKEN" := t]> (<["TRELLO_API_KEY" := k]> (environ w)))
  /\ env' !! "TRELLO_API_KEY" = Some k
  /\ env' !! "TRELLO_API_TOKEN" = Some t
  /\ env' !! "TRELLO_BOARD_ID" = Some b
  /\ forall name : string,
      name <> "TRELLO_API_KEY" -> name <> "TRELLO_API_TOKEN" ->
      name <> "TRELLO_BOARD_ID" ->
      env' !! name = environ w !! name.
Proof.
  destruct (generate_trello_report_shape k t b w) as (evs & Hw & _).
  cbn zeta. rewrite Hw. cbn [environ]. unfold credentials_env.
  repeat split.
  - by simplify_map_eq.
  - by simplify_map_eq.
  - by simplify_map_eq.
  - intros name H1 H2 H3. by rewrite !lookup_insert_ne.
Qed.

(** ** More on the fetch tools *)

(** X1: a tool whose credentials are not all in the environment raises
    [KeyError] for the first one that is missing, in the order the code
    reads them, and does nothing else: no request, no output. *)
Theorem fetch_missing_credential_raises (w : World) :
  (forall name,
      first_missing ["TRELLO_API_KEY"; "TRELLO_API_TOKEN"; "TRELLO_BOARD_ID"]
                    (environ w) = Some name ->
      BoardDataFetcherTool_run w = (Raised (KeyError name), w))
  /\ (forall name card_id,
         first_missing ["TRELLO_API_KEY"; "TRELLO_API_TOKEN"] (environ w)
         = Some name ->
         CardDataFetcherTool_run card_id w = (Raised (KeyError name), w)).
Proof.
  unfold first_missing, BoardDataFetcherTool_run, CardDataFetcherTool_run,
    bind, environ_getitem.
  split; intros name; [|intros card_id]; cbn [List.find];
    destruct (environ w !! "TRELLO_API_KEY");
    destruct (environ w !! "TRELLO_API_TOKEN");
    try destruct (environ w !! "TRELLO_BOARD_ID");
    intros Hname; try discriminate; by injection Hname as <-.
Qed.

(** X2: with key and token in the environment, [CardDataFetcherTool._run]
    issues exactly one request, to [<base>/1/cards/<card_id>], with the key
    and the token as its only parameters; on status 200 the decoded body is
    its result. *)
Theorem fetch_card_one_request (w : World) (k t card_id : string) :
  environ w !! "TRELLO_API_KEY" = Some k ->
  environ w !! "TRELLO_API_TOKEN" = Some t ->
  let req := mkRequest (base_url w +:+ "/1/cards/" +:+ card_id)
                       [("key", k); ("token", t)] in
  http_of (events (snd (CardDataFetcherTool_run card_id w)))
  = (http_of (events w) ++ [req])%list
  /\ forall (response : Response) (v : PyVal),
      requests_get req = Returned response ->
      status_code response = 200 ->
      json_loads (content response) = Some v ->
      fst (CardDataFetcherTool_run card_id w) = Returned v.
Proof.
  intros Hk Ht req.
  rewrite (CardDataFetcherTool_run_eq w k t card_id Hk Ht).
  change (card_request (base_url w) k t card_id) with req. cbn [fst snd].
  split.
  - unfold extend; cbn [events]. by rewrite http_of_app, http_of_fetch_events.
  - intros response v Hresp Hstatus Hjson.
    unfold fetch_outcome, fetch_result. by rewrite Hresp, Hstatus, Hjson.
Qed.

(** X3: a card fetch depends on the environment only through the key, the
    token and the base URL; in particular the board id plays no part. *)
Theorem fetch_card_ignores_board_id (w1 w2 : World) (card_id : string) :
  environ w1 !! "TRELLO_API_KEY" = environ w2 !! "TRELLO_API_KEY" ->
  environ w1 !! "TRELLO_API_TOKEN" = environ w2 !! "TRELLO_API_TOKEN" ->
  environ w1 !! "DLAI_TRELLO_BASE_URL" = environ w2 !! "DLAI_TRELLO_BASE_URL" ->
  events w1 = events w2 ->
  fst (CardDataFetcherTool_run card_id w1) = fst (CardDataFetcherTool_run card_id w2)
  /\ events (snd (CardDataFetcherTool_run card_id w1))
     = events (snd (CardDataFetcherTool_run card_id w2)).
Proof.
  intros Hk Ht Hbase Hevs.
  unfold CardDataFetcherTool_run, bind, environ_getitem, getenv_default, http_get.
  rewrite Hk.
  destruct (environ w2 !! "TRELLO_API_KEY") as [k|]; [|by cbn].
  cbn beta iota. rewrite Ht.
  destruct (environ w2 !! "TRELLO_API_TOKEN") as [t|]; [|by cbn].
  cbn beta iota. rewrite Hbase. cbn [environ events]. rewrite Hevs.
  destruct (requests_get _) as [response|e]; [|by cbn].
  unfold print_response, bind, print, emit; cbn [environ events].
  destruct (Z.eqb (status_code response) 200); [|by cbn].
  unfold response_json. by destruct (json_loads (content response)).
Qed.

(** X4: a response with status 200 whose body is not JSON makes both tools
    raise the decoder's error, after the request and the three printed
    lines; the fallback text is not returned. *)
Theorem fetch_ok_status_bad_body_raises
        (w : World) (k t b card_id : string) (rb rc : Response) :
  environ w !! "TRELLO_API_KEY" = Some k ->
  environ w !! "TRELLO_API_TOKEN" = Some t ->
  environ w !! "TRELLO_BOARD_ID" = Some b ->
  requests_get (board_request (base_url w) k t b) = Returned rb ->
  requests_get (card_request (base_url w) k t card_id) = Returned rc ->
  status_code rb = 200 -> json_loads (content rb) = None ->
  status_code rc = 200 -> json_loads (content rc) = None ->
  (fst (BoardDataFetcherTool_run w) = Raised (JSONDecodeError "Expecting value")
   /\ length (stdout_of (events (snd (BoardDataFetcherTool_run w))))
      = (length (stdout_of (events w)) + 3)%nat)
  /\ (fst (CardDataFetcherTool_run card_id w)
      = Raised (JSONDecodeError "Expecting value")
      /\ length (stdout_of (events (snd (CardDataFetcherTool_run card_id w))))
         = (length (stdout_of (events w)) + 3)%nat).
Proof.
  intros Hk Ht Hb Hrb Hrc Hsb Hjb Hsc Hjc.
  rewrite (BoardDataFetcherTool_run_eq w k t b Hk Ht Hb).
  rewrite (CardDataFetcherTool_run_eq w k t card_id Hk Ht).
  cbn [fst snd]. unfold fetch_outcome, fetch_result, fetch_events, extend.
  rewrite Hrb, Hrc, Hsb, Hsc, Hjb, Hjc. cbn [events].
  rewrite !stdout_of_app, !length_app. by cbn.
Qed.

(** X5: when [requests.get] itself raises (a timeout, a refused
    connection), both tools raise the same exception: the request was
    attempted, nothing is printed and the fallback text is not returned. *)
Theorem fetch_transport_error_propagates
        (w : World) (k t b card_id : string) (e1 e2 : PyExc) :
  environ w !! "TRELLO_API_KEY" = Some k ->
  environ w !! "TRELLO_API_TOKEN" = Some t ->
  environ w !! "TRELLO_BOARD_ID" = Some b ->
  requests_get (board_request (base_url w) k t b) = Raised e1 ->
  requests_get (card_request (base_url w) k t card_id) = Raised e2 ->
  BoardDataFetcherTool_run w
  = (Raised e1, extend w [EvHttpGet (board_request (base_url w) k t b)])
  /\ CardDataFetcherTool_run card_id w
     = (Raised e2, extend w [EvHttpGet (card_request (base_url w) k t card_id)]).
Proof.
  intros Hk Ht Hb Hrb Hrc.
  rewrite (BoardDataFetcherTool_run_eq w k t b Hk Ht Hb).
  rewrite (CardDataFetcherTool_run_eq w k t card_id Hk Ht).
  unfold fetch_outcome, fetch_events. by rewrite Hrb, Hrc.
Qed.

(** X6: whatever an agent does with whatever tools, the process
    environment is as before, the events that were there are still there,
    and what was added are requests and printed lines only. *)
Theorem agent_keeps_environ (available : list Tool) (p : AgentProg) (w : World) :
  environ (snd (run_agent available p w)) = environ w
  /\ exists evs,
      events (snd (run_agent available p w)) = (events w ++ evs)%list
      /\ streamlit_of evs = []
      /\ task_events_of evs = [].
Proof.
  destruct (run_agent_frame available p w) as (evs & Hw & Hfetch).
  rewrite Hw. split; [reflexivity|]. exists evs.
  split; [reflexivity|]. split; [|by apply task_events_of_fetch].
  clear Hw. induction Hfetch as [|ev evs Hev _ IH]; [reflexivity|].
  destruct ev; try discriminate; exact IH.
Qed.

(** ** More on configuration loading and [generate_trello_report] *)

(** X7: [d[k] = v] followed by [d[k]] gives [v], other keys read as
    before, and the order of the keys is kept: a new key goes to the end,
    an old one stays where it was. *)
Theorem dict_set_get (items : list (string * PyVal)) (k : string) (v : PyVal) :
  dict_get (dict_set items k v) k = Some v
  /\ (forall k', k' <> k -> dict_get (dict_set items k v) k' = dict_get items k')
  /\ List.map fst (dict_set items k v)
     = match dict_get items k with
       | Some _ => List.map fst items
       | None => (List.map fst items ++ [k])%list
       end.
Proof.
  induction items as [|[k0 v0] items (IH1 & IH2 & IH3)]; cbn.
  - rewrite String.eqb_refl. repeat split.
    intros k' Hk'. by destruct (String.eqb_spec k k').
  - destruct (String.eqb_spec k0 k) as [->|Hne]; cbn.
    + rewrite String.eqb_refl. repeat split.
      intros k' Hk'. by destruct (String.eqb_spec k k').
    + destruct (String.eqb_spec k0 k) as [|_]; [contradiction|].
      split; [exact IH1|]. split.
      * intros k' Hk'. destruct (String.eqb_spec k0 k'); [reflexivity|].
        by apply IH2.
      * rewrite IH3. by destruct (dict_get items k).
Qed.

(** X8: [load_yaml_configs] stops at the first file that fails.  A YAML
    error in [config/agents.yaml] gives [None] and one message to
    [st.error] that names the file; a missing [config/agents.yaml] raises
    [FileNotFoundError].  Either way [config/tasks.yaml] plays no part. *)
Theorem load_yaml_configs_stops_at_first_error (w : World) :
  (forall text e,
      read_file "config/agents.yaml" = Some text ->
      yaml_safe_load text = inl e ->
      load_yaml_configs w
      = (Returned PyNone,
         extend w [EvStreamlit StError
                     ("Error parsing YAML file config/agents.yaml: " +:+ e)]))
  /\ (read_file "config/agents.yaml" = None ->
      load_yaml_configs w = (Raised (FileNotFoundError "config/agents.yaml"), w)).
Proof.
  unfold load_yaml_configs, config_files. cbn [load_yaml_loop].
  unfold bind, open_read. split.
  - intros text e -> Hyaml. cbn. by rewrite Hyaml.
  - by intros ->.
Qed.

(** X9: when both files are read and parsed, [load_yaml_configs] returns
    the dict with the two documents under [agents] and [tasks], in that
    order, and reports nothing; when only [config/tasks.yaml] fails, a
    missing file raises and a YAML error gives [None] with a message that
    names that file. *)
Theorem load_yaml_configs_second_file
        (w : World) (agents_text : string) (agents_doc : PyVal) :
  read_file "config/agents.yaml" = Some agents_text ->
  yaml_safe_load agents_text = inr agents_doc ->
  (forall tasks_text tasks_doc,
      read_file "config/tasks.yaml" = Some tasks_text ->
      yaml_safe_load tasks_text = inr tasks_doc ->
      load_yaml_configs w
      = (Returned (PyDict [("agents", agents_doc); ("tasks", tasks_doc)]), w))
  /\ (forall tasks_text e,
         read_file "config/tasks.yaml" = Some tasks_text ->
         yaml_safe_load tasks_text = inl e ->
         load_yaml_configs w
         = (Returned PyNone,
            extend w [EvStreamlit StError
                        ("Error parsing YAML file config/tasks.yaml: " +:+ e)]))
  /\ (read_file "config/tasks.yaml" = None ->
      load_yaml_configs w = (Raised (FileNotFoundError "config/tasks.yaml"), w)).
Proof.
  intros Hread Hyaml.
  unfold load_yaml_configs, config_files. cbn [load_yaml_loop].
  unfold bind, open_read. rewrite Hread. cbn. rewrite Hyaml.
  repeat split.
  - intros tasks_text tasks_doc -> Hdoc. cbn. by rewrite Hdoc.
  - intros tasks_text e -> He. cbn. by rewrite He.
  - by intros ->.
Qed.

(** The run after the three assignments: it raised before the crew was
    built, or a YAML error ended it, or the crew was built from the two
    documents and kicked off. *)
Lemma generate_trello_report_decompose (k t b : string) (w : World) :
  let w0 := mkWorld (credentials_env k t b (environ w)) (events w) in
  (exists e,
      generate_trello_report (Some k) (Some t) (Some b) w = (Raised e, w0))
  \/ (exists msg,
         generate_trello_report (Some k) (Some t) (Some b) w
         = (Returned None,
            extend w0 [EvStreamlit StError msg;
                       EvStreamlit StError "Failed to load configurations"]))
  \/ (exists agents_config tasks_config t1 t2 t3,
         stages_of agents_config tasks_config t1 t2 t3
         /\ generate_trello_report (Some k) (Some t) (Some b) w
            = try_except
                (let* result := kickoff (mkCrew [agent t1; agent t2] [t1; t2; t3]) in
                 ret (Some (raw result)))
                (fun e =>
                   let* _ := st_error ("Error generating report: " +:+ exc_str e) in
                   ret None)
                w0).
Proof.
  intros w0.
  change (generate_trello_report (Some k) (Some t) (Some b) w) with
    ((let* configs := load_yaml_configs in
      if negb (py_truthy configs) then
        let* _ := st_error "Failed to load configurations" in
        ret None
      else
        let* agents_config := py_getitem configs "agents" in
        let* '(data_collection_agent, analysis_agent) := create_agents agents_config in
        let* tasks_config := py_getitem configs "tasks" in
        let* '(data_collection, data_analysis, report_generation) :=
          create_tasks tasks_config data_collection_agent analysis_agent in
        let crew := mkCrew [data_collection_agent; analysis_agent]
                           [data_collection; data_analysis; report_generation] in
        try_except
          (let* result := kickoff crew in
           ret (Some (raw result)))
          (fun e =>
             let* _ := st_error ("Error generating report: " +:+ exc_str e) in
             ret None)) w0).
  generalize w0; clear w0 w; intros w.
  match goal with
  | |- (exists e, ?run = _) \/ _ => remember run as result eqn:Hresult
  end.
  unfold bind at 1 in Hresult.
  destruct (load_yaml_configs_cases w)
    as [(path & Hload)|[(msg & Hload)|(agents_config & tasks_config & Hload)]];
    rewrite Hload in Hresult; clear Hload.
  { left. by eexists. }
  { right; left. exists msg. rewrite Hresult. cbn.
    unfold extend; cbn. by rewrite <- app_assoc. }
  cbn [py_truthy length Nat.eqb negb] in Hresult.
  unfold bind at 1, py_getitem at 1 in Hresult.
  cbn [subscript dict_get String.eqb Ascii.eqb Bool.eqb] in Hresult.
  unfold bind at 1, create_agents, bind, py_getitem, ret in Hresult.
  destruct (subscript agents_config "data_collection_agent") as [collector|e] eqn:Hc;
    [|left; by eexists].
  destruct (subscript agents_config "analysis_agent") as [analyst|e] eqn:Ha;
    [|left; by eexists].
  cbn [subscript dict_get String.eqb Ascii.eqb Bool.eqb] in Hresult.
  unfold create_tasks, bind, py_getitem, ret in Hresult.
  destruct (subscript tasks_config "data_collection") as [c1|e] eqn:H1;
    [|left; by eexists].
  destruct (subscript tasks_config "data_analysis") as [c2|e] eqn:H2;
    [|left; by eexists].
  destruct (subscript tasks_config "report_generation") as [c3|e] eqn:H3;
    [|left; by eexists].
  right; right.
  exists agents_config, tasks_config,
    (mkTask c1 (mkAgent collector [BoardDataFetcherTool; CardDataFetcherTool])),
    (mkTask c2 (mkAgent analyst [])), (mkTask c3 (mkAgent analyst [])).
  split; [|exact Hresult].
  by exists collector, analyst, c1, c2, c3.
Qed.

(** X10: when both files parse but the first entry that [create_agents]
    looks up, [data_collection_agent], cannot be read (the agents document
    is empty, or is not a mapping, or lacks the key),
    [generate_trello_report] raises the exception of that lookup, a
    [TypeError] or the [KeyError] for that key: it is not caught, nothing
    is reported to the front end, no task runs, and the credentials are in
    the environment already. *)
Theorem generate_bad_configuration_entry
        (k t b : string) (w : World) (agents_text tasks_text : string)
        (agents_doc tasks_doc : PyVal) (e : PyExc) :
  read_file "config/agents.yaml" = Some agents_text ->
  yaml_safe_load agents_text = inr agents_doc ->
  read_file "config/tasks.yaml" = Some tasks_text ->
  yaml_safe_load tasks_text = inr tasks_doc ->
  subscript agents_doc "data_collection_agent" = Raised e ->
  generate_trello_report (Some k) (Some t) (Some b) w
  = (Raised e,
     mkWorld (<["TRELLO_BOARD_ID" := b]>
                (<["TRELLO_API_TOKEN" := t]>
                   (<["TRELLO_API_KEY" := k]> (environ w))))
             (events w))
  /\ (e = KeyError "data_collection_agent" \/ exists msg, e = TypeError msg).
Proof.
  intros Hr1 Hy1 Hr2 Hy2 Hfirst. split.
  - unfold generate_trello_report, bind, environ_setitem, load_yaml_configs,
      config_files.
    cbn [load_yaml_loop environ events]. unfold bind, open_read.
    rewrite Hr1. cbn. rewrite Hy1, Hr2. cbn. rewrite Hy2. cbn.
    unfold create_agents, bind, py_getitem. by rewrite Hfirst.
  - destruct agents_doc as [| | | | |items]; cbn in Hfirst;
      try (injection Hfirst as <-; right; by eexists).
    destruct (dict_get items "data_collection_agent"); [discriminate|].
    left. by injection Hfirst as <-.
Qed.


(** X11: a missing configuration file makes [generate_trello_report] raise
    [FileNotFoundError] to its caller: it is outside the [try], nothing is
    reported to the front end, and the credentials are in the environment
    already. *)
Theorem generate_missing_config_file (k t b : string) (w : World) :
  read_file "config/agents.yaml" = None ->
  generate_trello_report (Some k) (Some t) (Some b) w
  = (Raised (FileNotFoundError "config/agents.yaml"),
     mkWorld (<["TRELLO_BOARD_ID" := b]>
                (<["TRELLO_API_TOKEN" := t]>
                   (<["TRELLO_API_KEY" := k]> (environ w))))
             (events w)).
Proof.
  intros Hr1.
  unfold generate_trello_report, bind, environ_setitem, load_yaml_configs,
    config_files.
  cbn [load_yaml_loop environ events]. unfold bind, open_read.
  by rewrite Hr1.
Qed.

(** X12: a credential that is [None] makes [generate_trello_report] raise
    [TypeError] at its assignment: the credentials before it are in the
    environment already, the ones after it are not written, and nothing
    else has happened. *)
Theorem generate_none_credential
        (api_token board_id : option string) (k t : string) (w : World) :
  generate_trello_report None api_token board_id w
  = (Raised (TypeError "str expected, not NoneType"), w)
  /\ generate_trello_report (Some k) None board_id w
     = (Raised (TypeError "str expected, not NoneType"),
        mkWorld (<["TRELLO_API_KEY" := k]> (environ w)) (events w))
  /\ generate_trello_report (Some k) (Some t) None w
     = (Raised (TypeError "str expected, not NoneType"),
        mkWorld (<["TRELLO_API_TOKEN" := t]>
                   (<["TRELLO_API_KEY" := k]> (environ w)))
                (events w)).
Proof. repeat split. Qed.

(** X13: of two runs one after the other, the second one's credentials
    are what the environment holds afterwards; the first one's are
    overwritten. *)
Theorem generate_twice_last_wins (k1 t1 b1 k2 t2 b2 : string) (w : World) :
  environ
    (snd (generate_trello_report (Some k2) (Some t2) (Some b2)
            (snd (generate_trello_report (Some k1) (Some t1) (Some b1) w))))
  = <["TRELLO_BOARD_ID" := b2]>
      (<["TRELLO_API_TOKEN" := t2]>
         (<["TRELLO_API_KEY" := k2]> (environ w))).
Proof.
  destruct (generate_trello_report_shape k1 t1 b1 w) as (evs1 & Hw1 & _).
  rewrite Hw1.
  destruct (generate_trello_report_shape k2 t2 b2
              (mkWorld (credentials_env k1 t1 b1 (environ w)) (events w ++ evs1)))
    as (evs2 & Hw2 & _).
  rewrite Hw2. cbn [environ]. unfold credentials_env.
  apply map_eq. intros name.
  rewrite !lookup_insert.
  repeat case_decide; reflexivity.
Qed.

(** ** Where a run's requests come from *)

Lemma streamlit_of_app (evs1 evs2 : list Event) :
  streamlit_of (evs1 ++ evs2) = (streamlit_of evs1 ++ streamlit_of evs2)%list.
Proof. apply omap_app. Qed.

Lemma streamlit_of_crew (evs : list Event) :
  Forall (fun ev => is_crew_event ev = true) evs -> streamlit_of evs = [].
Proof.
  induction 1 as [|ev evs Hev _ IH]; [reflexivity|].
  destruct ev; try discriminate; exact IH.
Qed.

Lemma tool_run_requests (tool : Tool) (input : option string) (w : World)
      (k t : string) :
  environ w !! "TRELLO_API_KEY" = Some k ->
  environ w !! "TRELLO_API_TOKEN" = Some t ->
  exists evs,
    snd (tool_run tool input w) = extend w evs
    /\ Forall (fun ev => is_fetch_event ev = true) evs
    /\ Forall (carries_credentials k t) (http_of evs).
Proof.
  intros Hk Ht. destruct tool; cbn [tool_run].
  - destruct (environ w !! "TRELLO_BOARD_ID") as [b|] eqn:Hb.
    + rewrite (BoardDataFetcherTool_run_eq w k t b Hk Ht Hb). cbn [snd].
      eexists. split; [reflexivity|]. split; [apply fetch_events_fetch|].
      rewrite http_of_fetch_events. constructor; [|constructor].
      by eexists.
    + exists []. rewrite extend_nil. split; [|split; constructor].
      unfold BoardDataFetcherTool_run, bind, environ_getitem.
      by rewrite Hk, Ht, Hb.
  - destruct input as [card_id|].
    + rewrite (CardDataFetcherTool_run_eq w k t card_id Hk Ht). cbn [snd].
      eexists. split; [reflexivity|]. split; [apply fetch_events_fetch|].
      rewrite http_of_fetch_events. constructor; [|constructor].
      by eexists.
    + exists []. rewrite extend_nil. split; [reflexivity|split; constructor].
Qed.

Lemma run_agent_requests (available : list Tool) (p : AgentProg) (k t : string) :
  forall w,
    environ w !! "TRELLO_API_KEY" = Some k ->
    environ w !! "TRELLO_API_TOKEN" = Some t ->
    exists evs,
      snd (run_agent available p w) = extend w evs
      /\ Forall (fun ev => is_fetch_event ev = true) evs
      /\ Forall (carries_credentials k t) (http_of evs).
Proof.
  induction p as [answer|e|name input continue IH]; intros w Hk Ht.
  - exists []. rewrite extend_nil. split; [reflexivity|split; constructor].
  - exists []. rewrite extend_nil. split; [reflexivity|split; constructor].
  - cbn [run_agent]. destruct (find_tool available name) as [tool|].
    + destruct (tool_run_requests tool input w k t Hk Ht)
        as (evs1 & Hw1 & Hf1 & Hc1).
      destruct (tool_run tool input w) as [observation w1]. cbn [snd] in Hw1.
      subst w1.
      destruct (IH observation (extend w evs1) Hk Ht) as (evs2 & Hw2 & Hf2 & Hc2).
      exists (evs1 ++ evs2)%list. split; [|split].
      * rewrite Hw2. apply extend_extend.
      * by apply Forall_app.
      * rewrite http_of_app. by apply Forall_app.
    + by apply IH.
Qed.

(** A task whose agent has no tools: a start event and an end event. *)
Lemma execute_task_no_tools_eq (t : Task) (context : string) (w : World) :
  tools (agent t) = [] ->
  exists out,
    execute_task t context w
    = (match out with
       | Returned answer => Returned (mkTaskOutput answer t)
       | Raised e => Raised e
       end,
       extend w [EvTaskStart t context; EvTaskEnd t out]).
Proof.
  intros Hnone. unfold execute_task, bind, emit. rewrite Hnone.
  set (p := llm _ _ _). set (w0 := mkWorld _ _).
  pose proof (run_agent_no_tools p w0) as Hframe.
  destruct (run_agent [] p w0) as [out w']. cbn [snd] in Hframe. subst w'.
  exists out. subst w0. unfold extend. cbn [environ events].
  rewrite <- app_assoc. by destruct out.
Qed.

(** A task in a world that holds key and token: a start event, the
    agent's fetches with these credentials, an end event. *)
Lemma execute_task_requests (t0 : Task) (context : string) (w : World)
      (k t : string) :
  environ w !! "TRELLO_API_KEY" = Some k ->
  environ w !! "TRELLO_API_TOKEN" = Some t ->
  exists evs out,
    Forall (fun ev => is_fetch_event ev = true) evs
    /\ Forall (carries_credentials k t) (http_of evs)
    /\ execute_task t0 context w
       = (match out with
          | Returned answer => Returned (mkTaskOutput answer t0)
          | Raised e => Raised e
          end,
          extend w (EvTaskStart t0 context :: evs ++ [EvTaskEnd t0 out])).
Proof.
  intros Hk Ht. unfold execute_task, bind, emit.
  fold (extend w [EvTaskStart t0 context]).
  destruct (run_agent_requests (tools (agent t0))
              (llm (agent_config (agent t0)) (task_config t0) context) k t
              (extend w [EvTaskStart t0 context]) Hk Ht) as (evs & Hw & Hf & Hc).
  destruct (run_agent _ _ _) as [out w1]. cbn [snd] in Hw. subst w1.
  exists evs, out. split; [exact Hf|]. split; [exact Hc|].
  unfold extend. cbn [environ events]. rewrite <- !app_assoc. cbn [app].
  by destruct out.
Qed.

(** The crew of three tasks of which only the first has tools. *)
Lemma kickoff_requests (crew_agents0 : list Agent) (t1 t2 t3 : Task)
      (w : World) (k t : string) :
  tools (agent t2) = [] ->
  tools (agent t3) = [] ->
  environ w !! "TRELLO_API_KEY" = Some k ->
  environ w !! "TRELLO_API_TOKEN" = Some t ->
  exists evs1 out1 rest,
    snd (kickoff (mkCrew crew_agents0 [t1; t2; t3]) w)
    = extend w (EvTaskStart t1 EmptyString :: evs1 ++ EvTaskEnd t1 out1 :: rest)
    /\ Forall (fun ev => is_fetch_event ev = true) evs1
    /\ Forall (carries_credentials k t) (http_of evs1)
    /\ http_of rest = [] /\ stdout_of rest = [] /\ streamlit_of rest = [].
Proof.
  intros Hn2 Hn3 Hk Ht.
  destruct (execute_task_requests t1 EmptyString w k t Hk Ht)
    as (evs1 & out1 & Hf1 & Hc1 & Heq1).
  unfold kickoff, bind. cbn [crew_tasks execute_tasks]. unfold bind.
  rewrite Heq1. clear Heq1.
  destruct out1 as [answer1|e1];
    [|exists evs1, (Raised e1), []; by repeat split].
  set (w1 := extend w _). cbn [task_raw].
  destruct (execute_task_no_tools_eq t2 answer1 w1 Hn2) as (out2 & Heq2).
  rewrite Heq2. clear Heq2.
  destruct out2 as [answer2|e2].
  - set (w2 := extend w1 _). cbn [task_raw].
    destruct (execute_task_no_tools_eq t3 answer2 w2 Hn3) as (out3 & Heq3).
    rewrite Heq3. clear Heq3.
    exists evs1, (Returned answer1),
      [EvTaskStart t2 answer1; EvTaskEnd t2 (Returned answer2);
       EvTaskStart t3 answer2; EvTaskEnd t3 out3].
    split; [|by repeat split].
    subst w2 w1. destruct out3; cbn [snd ret]; rewrite !extend_extend;
      f_equal; cbn [app]; f_equal; rewrite <- !app_assoc; reflexivity.
  - exists evs1, (Returned answer1),
      [EvTaskStart t2 answer1; EvTaskEnd t2 (Raised e2)].
    split; [|by repeat split].
    subst w1. cbn [snd]. rewrite !extend_extend.
    f_equal; cbn [app]; f_equal; rewrite <- !app_assoc; reflexivity.
Qed.

(** What a run adds to the trace: nothing that is a request or a printed
    line, or the collection task's start, its fetches, its end, and then
    nothing that is a request or a printed line. *)
Lemma generate_trello_report_requests (k t b : string) (w : World) :
  exists evs,
    events (snd (generate_trello_report (Some k) (Some t) (Some b) w))
    = (events w ++ evs)%list
    /\ ((http_of evs = [] /\ stdout_of evs = [])
        \/ exists t1 evs1 out1 rest,
            evs = (EvTaskStart t1 EmptyString :: evs1 ++ EvTaskEnd t1 out1 :: rest)%list
            /\ tools (agent t1) = [BoardDataFetcherTool; CardDataFetcherTool]
            /\ Forall (fun ev => is_fetch_event ev = true) evs1
            /\ Forall (carries_credentials k t) (http_of evs1)
            /\ http_of rest = [] /\ stdout_of rest = []).
Proof.
  destruct (generate_trello_report_decompose k t b w)
    as [(e & Hrun)|[(msg & Hrun)|(ac & tc & t1 & t2 & t3 & Hstages & Hrun)]];
    cbn zeta in Hrun; rewrite Hrun; clear Hrun.
  - exists []. cbn [snd events]. rewrite app_nil_r. split; [reflexivity|by left].
  - eexists. split; [reflexivity|]. by left.
  - destruct Hstages as (collector & analyst & c1 & c2 & c3 & _ & _ & _ & _ & _
                         & -> & -> & ->).
    set (w0 := mkWorld _ _).
    assert (Hk : environ w0 !! "TRELLO_API_KEY" = Some k).
    { subst w0. unfold credentials_env. cbn [environ]. by simplify_map_eq. }
    assert (Ht : environ w0 !! "TRELLO_API_TOKEN" = Some t).
    { subst w0. unfold credentials_env. cbn [environ]. by simplify_map_eq. }
    match goal with
    | |- context [kickoff ?c] =>
        destruct (kickoff_requests (crew_agents c)
                    (mkTask c1 (mkAgent collector
                                        [BoardDataFetcherTool; CardDataFetcherTool]))
                    (mkTask c2 (mkAgent analyst []))
                    (mkTask c3 (mkAgent analyst [])) w0 k t
                    eq_refl eq_refl Hk Ht)
          as (evs1 & out1 & rest & Hw & Hf & Hc & Hh & Hs & Hst)
    end.
    cbn [crew_agents] in Hw.
    unfold try_except, bind.
    destruct (kickoff _ w0) as [[result|e] w1]; cbn [snd] in Hw; subst w1.
    + eexists. split; [reflexivity|]. right.
      exists (mkTask c1 (mkAgent collector
                                 [BoardDataFetcherTool; CardDataFetcherTool])),
        evs1, out1, rest.
      by repeat split.
    + exists (EvTaskStart
                (mkTask c1 (mkAgent collector
                                    [BoardDataFetcherTool; CardDataFetcherTool]))
                EmptyString
              :: evs1 ++ EvTaskEnd
                   (mkTask c1 (mkAgent collector
                                       [BoardDataFetcherTool; CardDataFetcherTool]))
                   out1
                 :: rest ++ [EvStreamlit StError
                               ("Error generating report: " +:+ exc_str e)])%list.
      split.
      * unfold st_error, emit, ret. cbn [snd events]. unfold extend.
        subst w0. cbn [events]. rewrite <- app_assoc. cbn [app].
        do 2 f_equal. by rewrite <- app_assoc.
      * right. eexists _, evs1, out1, _. split; [reflexivity|].
        rewrite http_of_app, stdout_of_app, Hh, Hs. by repeat split.
Qed.

(** X14: every request sent during a run of [generate_trello_report]
    authenticates with the key and the token that the run was called
    with. *)
Theorem requests_carry_run_credentials (k t b : string) (w : World) :
  exists evs,
    events (snd (generate_trello_report (Some k) (Some t) (Some b) w))
    = (events w ++ evs)%list
    /\ Forall (carries_credentials k t) (http_of evs).
Proof.
  destruct (generate_trello_report_requests k t b w)
    as (evs & Hevs & [[Hh _]|(t1 & evs1 & out1 & rest & -> & _ & _ & Hc & Hh & _)]).
  - exists evs. split; [exact Hevs|]. rewrite Hh. constructor.
  - eexists. split; [exact Hevs|].
    change (EvTaskStart t1 EmptyString :: evs1 ++ EvTaskEnd t1 out1 :: rest)%list
      with ([EvTaskStart t1 EmptyString] ++ evs1 ++ [EvTaskEnd t1 out1] ++ rest)%list.
    rewrite !http_of_app, Hh. cbn [http_of omap app]. by rewrite app_nil_r.
Qed.


(** ** The button handler of [main] *)

(** The requests of a run and the credentials of its call. *)
Lemma report_requests_credentials (k t b : string) (w : World) :
  exists evs,
    events (snd (generate_trello_report (Some k) (Some t) (Some b) w))
    = (events w ++ evs)%list
    /\ Forall (carries_credentials k t) (http_of evs).
Proof.
  destruct (generate_trello_report_requests k t b w)
    as (evs & Hevs & [[Hh _]|(t1 & evs1 & out1 & rest & -> & _ & _ & Hc & Hh & _)]).
  - exists evs. split; [exact Hevs|]. rewrite Hh. constructor.
  - eexists. split; [exact Hevs|].
    change (EvTaskStart t1 EmptyString :: evs1 ++ EvTaskEnd t1 out1 :: rest)%list
      with ([EvTaskStart t1 EmptyString] ++ evs1 ++ [EvTaskEnd t1 out1] ++ rest)%list.
    rewrite !http_of_app, Hh. cbn [http_of omap app]. by rewrite app_nil_r.
Qed.

Lemma truthy_str_Some (v : option string) :
  truthy_str v = true -> exists s, v = Some s /\ s <> EmptyString.
Proof.
  destruct v as [s|]; [|discriminate]. cbn. intros Hs. exists s.
  split; [reflexivity|]. intros ->. discriminate.
Qed.

Lemma main_generate_custom_eq (key_input token_input board_input : string)
      (w : World) :
  truthy_str (Some key_input) && truthy_str (Some token_input)
  && truthy_str (Some board_input) = true ->
  main_generate MyTrelloBoard key_input token_input board_input w
  = report_and_render "Your Board Report Generated!"
                      (Some key_input) (Some token_input) (Some board_input) w.
Proof. intros Hok. unfold main_generate. by rewrite Hok. Qed.

Lemma main_generate_sample_eq (key_input token_input board_input : string)
      (w : World) :
  truthy_str (environ w !! "TRELLO_API_KEY")
  && truthy_str (environ w !! "TRELLO_API_TOKEN")
  && truthy_str (environ w !! "TRELLO_BOARD_ID") = true ->
  main_generate SampleBoard key_input token_input board_input w
  = report_and_render "Sample Board Report Generated!"
                      (environ w !! "TRELLO_API_KEY")
                      (environ w !! "TRELLO_API_TOKEN")
                      (environ w !! "TRELLO_BOARD_ID") w.
Proof. intros Hok. unfold main_generate, bind, getenv. by rewrite Hok. Qed.

(** Rendering adds nothing, or the success message and the report. *)
Lemma report_and_render_events (msg k t b : string) (w : World) :
  exists evs,
    snd (report_and_render msg (Some k) (Some t) (Some b) w)
    = extend (snd (generate_trello_report (Some k) (Some t) (Some b) w)) evs
    /\ (evs = []
        \/ exists report,
            report <> EmptyString
            /\ fst (generate_trello_report (Some k) (Some t) (Some b) w)
               = Returned (Some report)
            /\ fst (report_and_render msg (Some k) (Some t) (Some b) w)
               = Returned tt
            /\ evs = [EvStreamlit StSuccess msg; EvStreamlit StMarkdown report]).
Proof.
  unfold report_and_render, bind.
  destruct (generate_trello_report (Some k) (Some t) (Some b) w)
    as [[[report|]|e] w1]; cbn [fst snd truthy_str py_truthy].
  - destruct (String.eqb_spec report EmptyString) as [->|Hne]; cbn [negb].
    + exists []. rewrite extend_nil. split; [reflexivity|by left].
    + eexists. split; [|right; exists report; by repeat split].
      unfold st_success, st_markdown, emit, extend. cbn.
      by rewrite <- app_assoc.
  - exists []. rewrite extend_nil. split; [reflexivity|by left].
  - exists []. rewrite extend_nil. split; [reflexivity|by left].
Qed.

(** X16: a sample-board click leaves the process environment exactly as it
    was: with credentials missing nothing is written, and otherwise the
    values written are the ones just read. *)
Theorem main_generate_sample_keeps_environ
        (key_input token_input board_input : string) (w : World) :
  environ (snd (main_generate SampleBoard key_input token_input board_input w))
  = environ w.
Proof.
  destruct (truthy_str (environ w !! "TRELLO_API_KEY")
            && truthy_str (environ w !! "TRELLO_API_TOKEN")
            && truthy_str (environ w !! "TRELLO_BOARD_ID")) eqn:Hok.
  - rewrite (main_generate_sample_eq _ _ _ w Hok).
    apply andb_prop in Hok as [Hok Hb]. apply andb_prop in Hok as [Hk Ht].
    destruct (truthy_str_Some _ Hk) as (k & Hk' & _).
    destruct (truthy_str_Some _ Ht) as (t & Ht' & _).
    destruct (truthy_str_Some _ Hb) as (b & Hb' & _).
    rewrite Hk', Ht', Hb'.
    destruct (report_and_render_events "Sample Board Report Generated!" k t b w)
      as (evs & -> & _).
    destruct (generate_trello_report_shape k t b w) as (evs' & -> & _).
    cbn [environ extend]. unfold credentials_env.
    rewrite (insert_id _ "TRELLO_API_KEY" k Hk').
    rewrite (insert_id _ "TRELLO_API_TOKEN" t Ht').
    by rewrite (insert_id _ "TRELLO_BOARD_ID" b Hb').
  - unfold main_generate, bind, getenv. cbn [fst snd]. by rewrite Hok.
Qed.

(** X17: after a click for the user's own board with credentials [k], [t],
    [b], a sample-board click in the same process no longer uses the
    sample credentials: the environment holds [k], [t], [b], and every
    request the sample run sends authenticates with [k] and [t]. *)
Theorem sample_board_after_custom_board
        (k t b key_input token_input board_input : string) (w : World) :
  truthy_str (Some k) && truthy_str (Some t) && truthy_str (Some b) = true ->
  let w1 := snd (main_generate MyTrelloBoard k t b w) in
  environ w1 !! "TRELLO_API_KEY" = Some k
  /\ environ w1 !! "TRELLO_API_TOKEN" = Some t
  /\ environ w1 !! "TRELLO_BOARD_ID" = Some b
  /\ exists evs,
      events (snd (main_generate SampleBoard key_input token_input board_input w1))
      = (events w1 ++ evs)%list
      /\ Forall (carries_credentials k t) (http_of evs).
Proof.
  intros Hok w1.
  assert (Henv : environ w1 = credentials_env k t b (environ w)).
  { subst w1. rewrite (main_generate_custom_eq k t b w Hok).
    destruct (report_and_render_events "Your Board Report Generated!" k t b w)
      as (evs & -> & _).
    by destruct (generate_trello_report_shape k t b w) as (evs' & -> & _). }
  assert (Hk : environ w1 !! "TRELLO_API_KEY" = Some k).
  { rewrite Henv. unfold credentials_env. by simplify_map_eq. }
  assert (Ht : environ w1 !! "TRELLO_API_TOKEN" = Some t).
  { rewrite Henv. unfold credentials_env. by simplify_map_eq. }
  assert (Hb : environ w1 !! "TRELLO_BOARD_ID" = Some b).
  { rewrite Henv. unfold credentials_env. by simplify_map_eq. }
  split; [exact Hk|]. split; [exact Ht|]. split; [exact Hb|].
  generalize dependent w1. intros w1 _ Hk Ht Hb.
  rewrite main_generate_sample_eq by (by rewrite Hk, Ht, Hb).
  rewrite Hk, Ht, Hb.
  destruct (report_and_render_events "Sample Board Report Generated!" k t b w1)
    as (evs_r & -> & Hrender).
  destruct (report_requests_credentials k t b w1) as (evs_g & Hg & Hc).
  exists (evs_g ++ evs_r)%list. unfold extend. cbn [events].
  rewrite Hg, app_assoc. split; [reflexivity|].
  rewrite http_of_app. apply Forall_app. split; [exact Hc|].
  destruct Hrender as [->|(report & _ & _ & _ & ->)]; constructor.
Qed.

(** X18: the front-end messages of one click are a single warning, or
    error messages only (possibly none), or the success message followed
    by a non-empty report; a report is never shown next to an error. *)
Theorem main_generate_messages
        (board_type : BoardType) (key_input token_input board_input : string)
        (w : World) :
  exists evs,
    events (snd (main_generate board_type key_input token_input board_input w))
    = (events w ++ evs)%list
    /\ ((exists msg, streamlit_of evs = [(StWarning, msg)])
        \/ Forall (fun km => fst km = StError) (streamlit_of evs)
        \/ exists msg report,
            report <> EmptyString
            /\ streamlit_of evs = [(StSuccess, msg); (StMarkdown, report)]).
Proof.
  assert (Hrender : forall msg k t b,
             exists evs,
               events (snd (report_and_render msg (Some k) (Some t) (Some b) w))
               = (events w ++ evs)%list
               /\ ((exists m, streamlit_of evs = [(StWarning, m)])
                   \/ Forall (fun km => fst km = StError) (streamlit_of evs)
                   \/ exists m report,
                       report <> EmptyString
                       /\ streamlit_of evs = [(StSuccess, m); (StMarkdown, report)])).
  { intros msg k t b.
    destruct (report_and_render_events msg k t b w) as (evs_r & -> & Hr).
    destruct (generate_trello_report_shape k t b w) as (evs_g & Hw & Hshape).
    rewrite Hw. exists (evs_g ++ evs_r)%list. unfold extend. cbn [events].
    rewrite app_assoc. split; [reflexivity|]. rewrite streamlit_of_app.
    destruct Hr as [->|(report & Hne & Hout & _ & ->)].
    - right; left. rewrite app_nil_r.
      destruct Hshape as [e _ ->|m _ ->|ac tc t1 t2 t3 crew_evs e _ Hcrew _ _ ->
                         |ac tc t1 t2 t3 answer _ Hcrew _ _].
      + constructor.
      + by repeat constructor.
      + rewrite streamlit_of_app, (streamlit_of_crew _ Hcrew).
        by repeat constructor.
      + rewrite (streamlit_of_crew _ Hcrew). constructor.
    - right; right. exists msg, report. split; [exact Hne|].
      destruct Hshape as [e Hraised _|m Hnone _
                         |ac tc t1 t2 t3 crew_evs e _ _ _ Hnone _
                         |ac tc t1 t2 t3 answer _ Hcrew _ _];
        try congruence.
      by rewrite (streamlit_of_crew _ Hcrew). }
  assert (Hwarn : forall msg,
             exists evs,
               events (snd (st_warning msg w)) = (events w ++ evs)%list
               /\ ((exists m, streamlit_of evs = [(StWarning, m)])
                   \/ Forall (fun km => fst km = StError) (streamlit_of evs)
                   \/ exists m report,
                       report <> EmptyString
                       /\ streamlit_of evs = [(StSuccess, m); (StMarkdown, report)])).
  { intros msg. eexists. split; [reflexivity|]. left. by eexists. }
  destruct board_type.
  - destruct (truthy_str (environ w !! "TRELLO_API_KEY")
              && truthy_str (environ w !! "TRELLO_API_TOKEN")
              && truthy_str (environ w !! "TRELLO_BOARD_ID")) eqn:Hok.
    + rewrite (main_generate_sample_eq _ _ _ w Hok).
      apply andb_prop in Hok as [Hok Hb]. apply andb_prop in Hok as [Hk Ht].
      destruct (truthy_str_Some _ Hk) as (k & -> & _).
      destruct (truthy_str_Some _ Ht) as (t & -> & _).
      destruct (truthy_str_Some _ Hb) as (b & -> & _).
      apply Hrender.
    + unfold main_generate, bind, getenv. cbn [fst snd]. rewrite Hok.
      apply Hwarn.
  - destruct (truthy_str (Some key_input) && truthy_str (Some token_input)
              && truthy_str (Some board_input)) eqn:Hok.
    + rewrite (main_generate_custom_eq _ _ _ w Hok). apply Hrender.
    + unfold main_generate. rewrite Hok. apply Hwarn.
Qed.

(** ** Start-up: [load_env_variables] and the asset loaders *)

Lemma load_env_variables_eq (w : World) :
  load_env_variables w
  = match (environ w ∪ dotenv_values) !! "OPENAI_API_KEY2" with
    | None =>
        (Raised (TypeError "str expected, not NoneType"),
         mkWorld (environ w ∪ dotenv_values) (events w))
    | Some key =>
        match (environ w ∪ dotenv_values) !! "OPENAI_MODEL_NAME" with
        | None =>
            (Raised (TypeError "str expected, not NoneType"),
             mkWorld (<["OPENAI_API_KEY" := key]> (environ w ∪ dotenv_values))
                     (events w))
        | Some _ =>
            (Returned tt,
             mkWorld (<["OPENAI_API_KEY" := key]> (environ w ∪ dotenv_values))
                     (events w))
        end
    end.
Proof.
  unfold load_env_variables, bind, load_dotenv, getenv, environ_setitem.
  cbn [environ events].
  destruct ((environ w ∪ dotenv_values) !! "OPENAI_API_KEY2") as [key|];
    [|reflexivity].
  cbn [environ events]. rewrite lookup_insert_ne by discriminate.
  destruct ((environ w ∪ dotenv_values) !! "OPENAI_MODEL_NAME") as [m|] eqn:Hm;
    [|reflexivity].
  f_equal. f_equal. apply insert_id. by rewrite lookup_insert_ne by discriminate.
Qed.

(** X19: when neither the environment nor [.env] defines
    [OPENAI_API_KEY2], [load_env_variables] raises [TypeError]; when it is
    defined but [OPENAI_MODEL_NAME] is not, it raises as well, and
    [OPENAI_API_KEY] has been written by then. *)
Theorem load_env_variables_missing_variable (w : World) :
  (environ w !! "OPENAI_API_KEY2" = None ->
   dotenv_values !! "OPENAI_API_KEY2" = None ->
   load_env_variables w
   = (Raised (TypeError "str expected, not NoneType"),
      mkWorld (environ w ∪ dotenv_values) (events w)))
  /\ (forall key,
         (environ w ∪ dotenv_values) !! "OPENAI_API_KEY2" = Some key ->
         environ w !! "OPENAI_MODEL_NAME" = None ->
         dotenv_values !! "OPENAI_MODEL_NAME" = None ->
         load_env_variables w
         = (Raised (TypeError "str expected, not NoneType"),
            mkWorld (<["OPENAI_API_KEY" := key]> (environ w ∪ dotenv_values))
                    (events w))).
Proof.
  rewrite load_env_variables_eq. split.
  - intros H1 H2.
    by rewrite (proj2 (lookup_union_None _ _ _) (conj H1 H2)).
  - intros key -> H1 H2.
    by rewrite (proj2 (lookup_union_None _ _ _) (conj H1 H2)).
Qed.

(** X20: after a [load_env_variables] that returns, [OPENAI_API_KEY] has
    the value of [OPENAI_API_KEY2], whatever it was before; every other
    variable has the value the environment had for it, or else the value
    [.env] gives it. *)
Theorem load_env_variables_result (w w' : World) :
  load_env_variables w = (Returned tt, w') ->
  environ w' !! "OPENAI_API_KEY" = environ w' !! "OPENAI_API_KEY2"
  /\ is_Some (environ w' !! "OPENAI_API_KEY")
  /\ (forall name : string,
         name <> "OPENAI_API_KEY" ->
         environ w' !! name
         = match environ w !! name with
           | Some v => Some v
           | None => dotenv_values !! name
           end)
  /\ events w' = events w.
Proof.
  rewrite load_env_variables_eq.
  destruct ((environ w ∪ dotenv_values) !! "OPENAI_API_KEY2") as [key|] eqn:Hkey;
    [|discriminate].
  destruct ((environ w ∪ dotenv_values) !! "OPENAI_MODEL_NAME") as [m|];
    [|discriminate].
  intros Heq. injection Heq as <-. cbn [environ events].
  rewrite lookup_insert_eq, lookup_insert_ne by discriminate.
  repeat split; [by rewrite Hkey|by eexists|].
  intros name Hname. rewrite lookup_insert_ne by done.
  rewrite lookup_union. by destruct (environ w !! name), (dotenv_values !! name).
Qed.

(** X21: [load_env_variables] is idempotent: once it has returned, running
    it again (as every rerun of [main] does) returns and changes nothing. *)
Theorem load_env_variables_idempotent (w w' : World) :
  load_env_variables w = (Returned tt, w') ->
  load_env_variables w' = (Returned tt, w').
Proof.
  rewrite (load_env_variables_eq w).
  destruct ((environ w ∪ dotenv_values) !! "OPENAI_API_KEY2") as [key|] eqn:Hkey;
    [|discriminate].
  destruct ((environ w ∪ dotenv_values) !! "OPENAI_MODEL_NAME") as [m|] eqn:Hmodel;
    [|discriminate].
  intros Heq. injection Heq as <-.
  rewrite load_env_variables_eq. cbn [environ events].
  set (env1 := <["OPENAI_API_KEY" := key]> (environ w ∪ dotenv_values)).
  assert (Hunion : env1 ∪ dotenv_values = env1).
  { apply map_eq. intros name. rewrite lookup_union.
    destruct (env1 !! name) as [v|] eqn:Hname.
    - by destruct (dotenv_values !! name).
    - subst env1.
      destruct (decide ("OPENAI_API_KEY" = name)) as [<-|Hne];
        [by rewrite lookup_insert_eq in Hname|].
      rewrite lookup_insert_ne in Hname by done.
      apply lookup_union_None in Hname as [_ ->]. reflexivity. }
  rewrite Hunion. subst env1.
  rewrite !lookup_insert_ne by discriminate. rewrite Hkey, Hmodel.
  by rewrite insert_insert_eq.
Qed.

Lemma b64encode_length_below (n : nat) :
  forall data : string,
    (String.length data < n)%nat ->
    String.length (Base64.b64encode data)
    = (4 * ((String.length data + 2) / 3))%nat.
Proof.
  induction n as [|n IH]; intros data Hlt; [lia|].
  destruct data as [|a [|b [|c rest]]]; try reflexivity.
  cbn [Base64.b64encode String.length] in *.
  rewrite IH by lia.
  replace (S (S (S (String.length rest))) + 2)%nat
    with (String.length rest + 2 + 1 * 3)%nat by lia.
  rewrite Nat.div_add by lia. lia.
Qed.

(** X22: when the image file is there, [load_sample_board_image] returns
    its base64 text without reporting anything: four characters for every
    three bytes, the last group padded.  The text is empty, and so falsy
    for the caller, exactly when the file is empty. *)
Theorem load_sample_board_image_text (w : World) (img : string) :
  read_file "assets/sample_trello_board.png" = Some img ->
  exists text,
    load_sample_board_image w = (Returned (Some text), w)
    /\ String.length text = (4 * ((String.length img + 2) / 3))%nat
    /\ (truthy_str (Some text) = false <-> img = EmptyString).
Proof.
  intros Hread. exists (Base64.b64encode img). split; [|split].
  - unfold load_sample_board_image, try_except, bind, open_read.
    by rewrite Hread.
  - apply (b64encode_length_below (S (String.length img))). lia.
  - destruct img as [|a [|b [|c rest]]]; cbn; split; congruence.
Qed.

(** X23: a missing file does not make the asset loaders raise: each
    returns [None] after exactly one warning, which for the style sheet
    names the path.  A style sheet that is read is returned as it is, with
    nothing reported. *)
Theorem asset_loaders_missing_file (w : World) (css_file_path : string) :
  (read_file css_file_path = None ->
   load_css_file css_file_path w
   = (Returned None,
      extend w [EvStreamlit StWarning
                  ("CSS file not found at " +:+ css_file_path)]))
  /\ (read_file "assets/sample_trello_board.png" = None ->
      load_sample_board_image w
      = (Returned None,
         extend w [EvStreamlit StWarning
                     "Sample board image not found. Please add an image to the assets folder."]))
  /\ (forall text,
         read_file css_file_path = Some text ->
         load_css_file css_file_path w = (Returned (Some text), w)).
Proof.
  unfold load_css_file, load_sample_board_image, try_except, bind, open_read.
  repeat split.
  - by intros ->.
  - by intros ->.
  - by intros text ->.
Qed.

End Program.

(** ** The program on concrete inputs *)

Import Scenario.

(** C1 on a concrete input: a 404 for the board and for the card. *)
Lemma fetch_failure_is_plain_value_witness :
  fst (BoardDataFetcherTool_run (api_status 404) decode with_credentials)
  = Returned (PyStr (Text.json_dumps fetch_error_payload))
  /\ fst (CardDataFetcherTool_run (api_status 404) decode "card7" with_credentials)
     = Returned (PyStr (Text.json_dumps fetch_error_payload)).
Proof.
  apply (fetch_failure_is_plain_value
           (api_status 404) decode with_credentials
           "SECRETKEY" "SECRETTOKEN" "board42" "card7"
           (mkResponse 404 "unauthorized permission requested")
           (mkResponse 404 "unauthorized permission requested"));
    first [reflexivity | (vm_compute; discriminate)].
Defined.

(** C1, against the claim as stated: on a 404 neither tool ends in an
    error, both return a value, and a 500 gives the very same value. *)
Lemma fetch_404_is_not_an_error :
  raised (fst (BoardDataFetcherTool_run (api_status 404) decode with_credentials))
  = false
  /\ raised (fst (CardDataFetcherTool_run (api_status 404) decode "card7"
                                         with_credentials))
     = false
  /\ fst (BoardDataFetcherTool_run (api_status 404) decode with_credentials)
     = fst (BoardDataFetcherTool_run (api_status 500) decode with_credentials).
Proof. vm_compute. auto. Qed.

(** C8 on a concrete input: a board with three cards. *)
Lemma fetch_board_one_request_witness :
  http_of (events (snd (BoardDataFetcherTool_run api_board decode with_credentials)))
  = [mkRequest "https://api.trello.com/1/boards/board42/cards"
               [("key", "SECRETKEY");
                ("token", "SECRETTOKEN");
                ("fields", "name,idList,due,dateLastActivity,labels");
                ("attachments", "true");
                ("actions", "commentCard")]]
  /\ fst (BoardDataFetcherTool_run api_board decode with_credentials)
     = Returned (PyList three_cards).
Proof.
  destruct (fetch_board_one_request
              api_board decode with_credentials
              "SECRETKEY" "SECRETTOKEN" "board42"
              eq_refl eq_refl eq_refl) as [Hone Hparse].
  split.
  - exact Hone.
  - apply (Hparse (mkResponse 200 "[card-1, card-2, card-3]") three_cards);
      reflexivity.
Defined.

(** C9 on a concrete input: an API that names the key it rejects. *)
Lemma fetch_prints_url_status_content_witness :
  stdout_of (events (snd (BoardDataFetcherTool_run api_echo decode with_credentials)))
  = ["URL: https://api.trello.com/1/boards/board42/cards";
     "Response Status Code: 401";
     "Response Content: b'invalid key: SECRETKEY'"]
  /\ stdout_of (events (snd (CardDataFetcherTool_run api_echo decode "card7"
                                                     with_credentials)))
     = ["URL: https://api.trello.com/1/cards/card7";
        "Response Status Code: 401";
        "Response Content: b'invalid key: SECRETKEY'"].
Proof.
  apply (fetch_prints_url_status_content
           api_echo decode with_credentials
           "SECRETKEY" "SECRETTOKEN" "board42" "card7"
           (mkResponse 401 "invalid key: SECRETKEY")
           (mkResponse 401 "invalid key: SECRETKEY"));
    reflexivity.
Defined.

(** C9, against the claim as stated: the API key shows up in what both
    tools print. *)
Lemma api_key_is_printed :
  existsb (Text.contains "SECRETKEY")
          (stdout_of (events (snd (BoardDataFetcherTool_run
                                     api_echo decode with_credentials))))
  = true
  /\ existsb (Text.contains "SECRETKEY")
             (stdout_of (events (snd (CardDataFetcherTool_run
                                        api_echo decode "card7" with_credentials))))
     = true.
Proof. vm_compute. auto. Qed.

(** C10 on a concrete input: a 404 for the board and a 200 for the card. *)
Lemma fetch_result_by_status_witness :
  fst (BoardDataFetcherTool_run
         (fun req => if String.prefix "https://api.trello.com/1/boards/" (url req)
                     then api_status 404 req else api_board req)
         decode with_credentials)
  = Returned (PyStr fetch_error_text)
  /\ fst (CardDataFetcherTool_run
            (fun req => if String.prefix "https://api.trello.com/1/boards/" (url req)
                        then api_status 404 req else api_board req)
            decode "card7" with_credentials)
     = Returned (PyList three_cards).
Proof.
  destruct (fetch_result_by_status
              (fun req => if String.prefix "https://api.trello.com/1/boards/" (url req)
                          then api_status 404 req else api_board req)
              decode with_credentials
              "SECRETKEY" "SECRETTOKEN" "board42" "card7"
              (mkResponse 404 "unauthorized permission requested")
              (mkResponse 200 "[card-1, card-2, card-3]")
              eq_refl eq_refl eq_refl eq_refl eq_refl)
    as (Hboard & _ & _ & Hcard & _).
  split.
  - apply Hboard. vm_compute. discriminate.
  - apply Hcard; reflexivity.
Defined.

(** C2, against the claim as stated: the board fetch fails with a 500, the
    run still returns a report, and nothing is reported to the front end. *)
Lemma failed_fetch_goes_unnoticed :
  fst (generate_trello_report (api_status 500) decode files yaml model
         (Some "SECRETKEY") (Some "SECRETTOKEN") (Some "board42") fresh)
  = Returned (Some "SPRINT REPORT")
  /\ List.map api_status_of
       (http_of (events (snd (generate_trello_report
                                (api_status 500) decode files yaml model
                                (Some "SECRETKEY") (Some "SECRETTOKEN")
                                (Some "board42") fresh))))
     = [Returned 500]
  /\ streamlit_of
       (events (snd (generate_trello_report
                       (api_status 500) decode files yaml model
                       (Some "SECRETKEY") (Some "SECRETTOKEN")
                       (Some "board42") fresh)))
     = [].
Proof. vm_compute. auto. Qed.

(** C3 on a concrete input: a board with three cards. *)
Lemma report_is_third_stage_text_witness :
  fst (generate_trello_report api_board decode files yaml model
         (Some "SECRETKEY") (Some "SECRETTOKEN") (Some "board42") fresh)
  = Returned (Some "SPRINT REPORT").
Proof.
  apply (report_is_third_stage_text
           api_board decode files yaml model
           "SECRETKEY" "SECRETTOKEN" "board42" fresh
           (events (snd (generate_trello_report
                           api_board decode files yaml model
                           (Some "SECRETKEY") (Some "SECRETTOKEN")
                           (Some "board42") fresh)))
           collect_task analyze_task report_task
           EmptyString "cards collected" "analysis"
           "cards collected" "analysis" "SPRINT REPORT");
    vm_compute; reflexivity.
Defined.

(** C5 on a concrete input: the agents and tasks of the scenario, with a
    model whose analyst asks for the board fetcher all the same. *)
Lemma capability_isolation_witness :
  tools (agent collect_task) = [BoardDataFetcherTool; CardDataFetcherTool]
  /\ tools (agent analyze_task) = []
  /\ tools (agent report_task) = []
  /\ http_of (events (snd (execute_task api_board decode curious_model
                                        analyze_task "cards collected"
                                        with_credentials)))
     = []
  /\ http_of (events (snd (execute_task api_board decode curious_model
                                        report_task "analysis"
                                        with_credentials)))
     = [].
Proof.
  destruct (capability_isolation
              api_board decode curious_model agents_doc tasks_doc
              collector analyst collect_task analyze_task report_task
              fresh fresh fresh fresh eq_refl eq_refl)
    as (H1 & H2 & H3 & _ & Hhttp).
  split; [exact H1|]. split; [exact H2|]. split; [exact H3|]. split.
  - exact (proj1 (Hhttp "cards collected" with_credentials)).
  - exact (proj2 (Hhttp "analysis" with_credentials)).
Defined.

(** C6 on a concrete input: a form whose board id was left empty. *)
Lemma main_guards_credentials_witness :
  exists msg,
    main_generate api_board decode files yaml model
                  MyTrelloBoard "SECRETKEY" "SECRETTOKEN" EmptyString fresh
    = (Returned tt, extend fresh [EvStreamlit StWarning msg])
    /\ http_of (events (extend fresh [EvStreamlit StWarning msg]))
       = http_of (events fresh).
Proof.
  apply (main_guards_credentials
           api_board decode files yaml model
           MyTrelloBoard "SECRETKEY" "SECRETTOKEN" EmptyString fresh).
  reflexivity.
Defined.

(** C6, against the claim as stated: called with an empty board id,
    [generate_trello_report] raises nothing and the request for the cards
    of board [] goes out. *)
Lemma empty_board_id_reaches_the_api :
  raised (fst (generate_trello_report api_board decode files yaml model
                 (Some "SECRETKEY") (Some "SECRETTOKEN") (Some EmptyString)
                 fresh))
  = false
  /\ List.map url
       (http_of (events (snd (generate_trello_report
                                api_board decode files yaml model
                                (Some "SECRETKEY") (Some "SECRETTOKEN")
                                (Some EmptyString) fresh))))
     = ["https://api.trello.com/1/boards//cards"].
Proof. vm_compute. auto. Qed.

(** C7 on a concrete input: a fresh process; [HOME] is as unset after the
    run as before. *)
Lemma credentials_written_to_environ_witness :
  environ (snd (generate_trello_report api_board decode files yaml model
                  (Some "SECRETKEY") (Some "SECRETTOKEN") (Some "board42")
                  fresh)) !! "HOME"
  = environ fresh !! "HOME".
Proof.
  apply (credentials_written_to_environ
           api_board decode files yaml model
           "SECRETKEY" "SECRETTOKEN" "board42" fresh);
    discriminate.
Defined.

(** C7, against the claim as stated: before the run the environment has no
    credentials, after it all three are there to stay. *)
Lemma credentials_outlive_the_run :
  environ fresh !! "TRELLO_API_KEY" = None
  /\ environ (snd (generate_trello_report api_board decode files yaml model
                     (Some "SECRETKEY") (Some "SECRETTOKEN") (Some "board42")
                     fresh)) !! "TRELLO_API_KEY"
     = Some "SECRETKEY"
  /\ environ (snd (generate_trello_report api_board decode files yaml model
                     (Some "SECRETKEY") (Some "SECRETTOKEN") (Some "board42")
                     fresh)) !! "TRELLO_API_TOKEN"
     = Some "SECRETTOKEN"
  /\ environ (snd (generate_trello_report api_board decode files yaml model
                     (Some "SECRETKEY") (Some "SECRETTOKEN") (Some "board42")
                     fresh))
     <> environ fresh.
Proof.
  vm_compute. repeat split; try reflexivity. discriminate.
Qed.


(** ** More of the program on concrete inputs *)

Import Cases.

(** X1 on a concrete input: a fresh process has no key; with only the key
    set, the token is the first one missing. *)
Lemma fetch_missing_credential_raises_witness :
  BoardDataFetcherTool_run api_board decode fresh
  = (Raised (KeyError "TRELLO_API_KEY"), fresh)
  /\ CardDataFetcherTool_run api_board decode "card7"
       (mkWorld (<["TRELLO_API_KEY" := "SECRETKEY"]> ∅) [])
     = (Raised (KeyError "TRELLO_API_TOKEN"),
        mkWorld (<["TRELLO_API_KEY" := "SECRETKEY"]> ∅) []).
Proof.
  split.
  - apply (proj1 (fetch_missing_credential_raises api_board decode fresh)).
    reflexivity.
  - apply (proj2 (fetch_missing_credential_raises
                    api_board decode
                    (mkWorld (<["TRELLO_API_KEY" := "SECRETKEY"]> ∅) []))).
    reflexivity.
Defined.

(** X2 on a concrete input: one card. *)
Lemma fetch_card_one_request_witness :
  http_of (events (snd (CardDataFetcherTool_run api_board decode "card7"
                                                with_credentials)))
  = [mkRequest "https://api.trello.com/1/cards/card7"
               [("key", "SECRETKEY"); ("token", "SECRETTOKEN")]]
  /\ fst (CardDataFetcherTool_run api_board decode "card7" with_credentials)
     = Returned (PyList three_cards).
Proof.
  destruct (fetch_card_one_request
              api_board decode with_credentials "SECRETKEY" "SECRETTOKEN" "card7"
              eq_refl eq_refl) as [Hone Hparse].
  split.
  - exact Hone.
  - apply (Hparse (mkResponse 200 "[card-1, card-2, card-3]") (PyList three_cards));
      reflexivity.
Defined.

(** X3 on a concrete input: the same card fetched with and without a board
    id in the environment. *)
Lemma fetch_card_ignores_board_id_witness :
  fst (CardDataFetcherTool_run api_board decode "card7" with_credentials)
  = fst (CardDataFetcherTool_run
           api_board decode "card7"
           (mkWorld (delete "TRELLO_BOARD_ID" (environ with_credentials)) []))
  /\ events (snd (CardDataFetcherTool_run api_board decode "card7" with_credentials))
     = events (snd (CardDataFetcherTool_run
                      api_board decode "card7"
                      (mkWorld (delete "TRELLO_BOARD_ID" (environ with_credentials))
                               []))).
Proof.
  apply (fetch_card_ignores_board_id
           api_board decode with_credentials
           (mkWorld (delete "TRELLO_BOARD_ID" (environ with_credentials)) [])
           "card7");
    reflexivity.
Defined.

(** X4 on a concrete input: a maintenance page served with status 200. *)
Lemma fetch_ok_status_bad_body_raises_witness :
  fst (BoardDataFetcherTool_run api_html decode with_credentials)
  = Raised (JSONDecodeError "Expecting value")
  /\ fst (CardDataFetcherTool_run api_html decode "card7" with_credentials)
     = Raised (JSONDecodeError "Expecting value").
Proof.
  destruct (fetch_ok_status_bad_body_raises
              api_html decode with_credentials
              "SECRETKEY" "SECRETTOKEN" "board42" "card7"
              (mkResponse 200 "<html>maintenance</html>")
              (mkResponse 200 "<html>maintenance</html>")
              eq_refl eq_refl eq_refl eq_refl eq_refl
              eq_refl eq_refl eq_refl eq_refl)
    as [[Hboard _] [Hcard _]].
  split; [exact Hboard|exact Hcard].
Defined.

(** X5 on a concrete input: the API cannot be reached. *)
Lemma fetch_transport_error_propagates_witness :
  fst (BoardDataFetcherTool_run api_down decode with_credentials)
  = Raised (RequestException "Connection refused")
  /\ stdout_of (events (snd (BoardDataFetcherTool_run api_down decode
                                                      with_credentials)))
     = [].
Proof.
  destruct (fetch_transport_error_propagates
              api_down decode with_credentials
              "SECRETKEY" "SECRETTOKEN" "board42" "card7"
              (RequestException "Connection refused")
              (RequestException "Connection refused")
              eq_refl eq_refl eq_refl eq_refl eq_refl) as [Hboard _].
  rewrite Hboard. split; reflexivity.
Defined.

(** X7 on a concrete input: replacing [agents] keeps [tasks]. *)
Lemma dict_set_get_witness :
  dict_get (dict_set [("agents", PyNone); ("tasks", tasks_doc)] "agents" agents_doc)
           "tasks"
  = Some tasks_doc.
Proof.
  rewrite (proj1 (proj2 (dict_set_get [("agents", PyNone); ("tasks", tasks_doc)]
                                      "agents" agents_doc)) "tasks");
    [reflexivity|discriminate].
Defined.

(** X8 on a concrete input: a broken [config/agents.yaml] in a directory
    where [config/tasks.yaml] does not even exist. *)
Lemma load_yaml_configs_stops_at_first_error_witness :
  load_yaml_configs agents_file_only yaml_broken fresh
  = (Returned PyNone,
     extend fresh
            [EvStreamlit StError
               "Error parsing YAML file config/agents.yaml: mapping values are not allowed here"]).
Proof.
  apply (proj1 (load_yaml_configs_stops_at_first_error
                  agents_file_only yaml_broken fresh)
               "config/agents.yaml" "mapping values are not allowed here");
    reflexivity.
Defined.

(** X9 on a concrete input: both files fine; the second one broken; the
    second one missing. *)
Lemma load_yaml_configs_second_file_witness :
  load_yaml_configs files yaml fresh
  = (Returned (PyDict [("agents", agents_doc); ("tasks", tasks_doc)]), fresh)
  /\ load_yaml_configs files yaml_tasks_broken fresh
     = (Returned PyNone,
        extend fresh
               [EvStreamlit StError
                  "Error parsing YAML file config/tasks.yaml: mapping values are not allowed here"])
  /\ load_yaml_configs agents_file_only yaml fresh
     = (Raised (FileNotFoundError "config/tasks.yaml"), fresh).
Proof.
  split; [|split].
  - apply (proj1 (load_yaml_configs_second_file
                    files yaml fresh "config/agents.yaml" agents_doc
                    eq_refl eq_refl)
                 "config/tasks.yaml" tasks_doc);
      reflexivity.
  - apply (proj1 (proj2 (load_yaml_configs_second_file
                           files yaml_tasks_broken fresh
                           "config/agents.yaml" agents_doc eq_refl eq_refl))
                 "config/tasks.yaml" "mapping values are not allowed here");
      reflexivity.
  - apply (proj2 (proj2 (load_yaml_configs_second_file
                           agents_file_only yaml fresh
                           "config/agents.yaml" agents_doc eq_refl eq_refl))).
    reflexivity.
Defined.

(** X10 on a concrete input: an empty [config/agents.yaml]. *)
Lemma generate_bad_configuration_entry_witness :
  generate_trello_report api_board decode files yaml_agents_empty model
                         (Some "SECRETKEY") (Some "SECRETTOKEN") (Some "board42")
                         fresh
  = (Raised (TypeError "'NoneType' object is not subscriptable"), with_credentials).
Proof.
  refine (proj1 (generate_bad_configuration_entry
                   api_board decode files yaml_agents_empty model
                   "SECRETKEY" "SECRETTOKEN" "board42" fresh
                   "config/agents.yaml" "config/tasks.yaml" PyNone tasks_doc
                   (TypeError "'NoneType' object is not subscriptable")
                   _ _ _ _ _));
    reflexivity.
Defined.

(** X11 on a concrete input: a directory without configuration files. *)
Lemma generate_missing_config_file_witness :
  generate_trello_report api_board decode no_files yaml model
                         (Some "SECRETKEY") (Some "SECRETTOKEN") (Some "board42")
                         fresh
  = (Raised (FileNotFoundError "config/agents.yaml"), with_credentials).
Proof.
  apply (generate_missing_config_file
           api_board decode no_files yaml model
           "SECRETKEY" "SECRETTOKEN" "board42" fresh).
  reflexivity.
Defined.

(** X17 on a concrete input: the user's board first, the sample board
    next. *)
Lemma sample_board_after_custom_board_witness :
  environ (snd (main_generate api_board decode files yaml model
                              MyTrelloBoard "USERKEY" "USERTOKEN" "userboard"
                              with_credentials)) !! "TRELLO_API_KEY"
  = Some "USERKEY".
Proof.
  exact (proj1 (sample_board_after_custom_board
                  api_board decode files yaml model
                  "USERKEY" "USERTOKEN" "userboard"
                  EmptyString EmptyString EmptyString
                  with_credentials eq_refl)).
Defined.

(** X19 on a concrete input: no [.env] at all; a [.env] without the model
    name. *)
Lemma load_env_variables_missing_variable_witness :
  load_env_variables ∅ fresh
  = (Raised (TypeError "str expected, not NoneType"), mkWorld (∅ ∪ ∅) [])
  /\ load_env_variables dotenv_no_model fresh
     = (Raised (TypeError "str expected, not NoneType"),
        mkWorld (<["OPENAI_API_KEY" := "sk-from-dotenv"]> (∅ ∪ dotenv_no_model)) []).
Proof.
  split.
  - apply (proj1 (load_env_variables_missing_variable ∅ fresh)); reflexivity.
  - apply (proj2 (load_env_variables_missing_variable dotenv_no_model fresh)
                 "sk-from-dotenv");
      reflexivity.
Defined.

(** X20 on a concrete input: the key from the shell is replaced by the one
    [.env] gives for [OPENAI_API_KEY2]. *)
Lemma load_env_variables_result_witness :
  environ (snd (load_env_variables dotenv with_openai_key)) !! "OPENAI_API_KEY"
  = environ (snd (load_env_variables dotenv with_openai_key)) !! "OPENAI_API_KEY2".
Proof.
  apply (load_env_variables_result
           dotenv with_openai_key
           (snd (load_env_variables dotenv with_openai_key))).
  vm_compute. reflexivity.
Defined.

(** X21 on a concrete input: a second start-up in the same process. *)
Lemma load_env_variables_idempotent_witness :
  load_env_variables dotenv (snd (load_env_variables dotenv with_openai_key))
  = (Returned tt, snd (load_env_variables dotenv with_openai_key)).
Proof.
  apply (load_env_variables_idempotent dotenv with_openai_key).
  vm_compute. reflexivity.
Defined.

(** X22 on a concrete input: an image of three bytes. *)
Lemma load_sample_board_image_text_witness :
  exists text,
    load_sample_board_image (fun _ => Some "PNG") fresh = (Returned (Some text), fresh)
    /\ String.length text = (4 * ((String.length "PNG" + 2) / 3))%nat
    /\ (truthy_str (Some text) = false <-> "PNG" = EmptyString).
Proof.
  apply (load_sample_board_image_text (fun _ => Some "PNG") fresh "PNG").
  reflexivity.
Defined.

(** X23 on a concrete input: a directory without assets. *)
Lemma asset_loaders_missing_file_witness :
  load_css_file no_files "assets/style.css" fresh
  = (Returned None,
     extend fresh [EvStreamlit StWarning "CSS file not found at assets/style.css"])
  /\ load_sample_board_image no_files fresh
     = (Returned None,
        extend fresh
               [EvStreamlit StWarning
                  "Sample board image not found. Please add an image to the assets folder."])
  /\ load_css_file files "assets/style.css" fresh
     = (Returned (Some "assets/style.css"), fresh).
Proof.
  split; [|split].
  - apply (proj1 (asset_loaders_missing_file no_files fresh "assets/style.css")).
    reflexivity.
  - apply (proj1 (proj2 (asset_loaders_missing_file
                           no_files fresh "assets/style.css"))).
    reflexivity.
  - apply (proj2 (proj2 (asset_loaders_missing_file
                           files fresh "assets/style.css"))
                 "assets/style.css").
    reflexivity.
Defined.
